(** * BioSimSpace.Protocol.Equilibration

    A shallow embedding of [BioSimSpace/Protocol/equilibration.py] and the
    properties of its validated accessors.

    The Python object is its attribute dictionary (a finite map from attribute
    names to values); the process-wide warning channel is a list of messages;
    a method is a function on that state which either returns or raises.  The
    state survives a raise, as it does in Python. *)

From Stdlib Require Import ZArith List String SpecFloat Lia.
From stdpp Require Import gmap strings.

Local Open Scope string_scope.
Local Open Scope Z_scope.

(** ** Python values *)

(** The members of [ProtocolType] that this file names. *)
Inductive ProtocolType := EQUILIBRATION.

(** The values that reach the accessors.  A [float] is an IEEE binary64
    number, an [int] is unbounded, [bool] is its own type (and a number). *)
Inductive value :=
| VNone
| VBool (b : bool)
| VInt (z : Z)
| VFloat (f : spec_float)
| VStr (s : string)
| VProtocolType (t : ProtocolType).

Inductive exn := TypeError | AttributeError.

(** ** Numbers and their order

    Python compares ints, bools and floats by their exact mathematical value.
    [Fin m e] stands for [m * 2^e]. *)
Inductive num :=
| NaN
| Inf (neg : bool)
| Fin (m e : Z).

Definition num_of_float (f : spec_float) : num :=
  match f with
  | S754_zero _ => Fin 0 0
  | S754_infinity s => Inf s
  | S754_nan => NaN
  | S754_finite s m e => Fin (if s then Z.neg m else Z.pos m) e
  end.

Definition as_num (v : value) : option num :=
  match v with
  | VBool b => Some (Fin (Z.b2z b) 0)
  | VInt z => Some (Fin z 0)
  | VFloat f => Some (num_of_float f)
  | _ => None
  end.

(** [None] when the operands are unordered (a NaN is involved). *)
Definition num_compare (x y : num) : option comparison :=
  match x, y with
  | NaN, _ | _, NaN => None
  | Inf s1, Inf s2 =>
      Some (match s1, s2 with
            | true, false => Lt
            | false, true => Gt
            | _, _ => Eq
            end)
  | Inf s, Fin _ _ => Some (if s then Lt else Gt)
  | Fin _ _, Inf s => Some (if s then Gt else Lt)
  | Fin m1 e1, Fin m2 e2 =>
      let e := Z.min e1 e2 in
      Some (Z.compare (m1 * 2 ^ (e1 - e)) (m2 * 2 ^ (e2 - e)))
  end.

Definition num_ltb (x y : num) : bool :=
  match num_compare x y with Some Lt => true | _ => false end.

Definition num_leb (x y : num) : bool :=
  match num_compare x y with Some Lt | Some Eq => true | _ => false end.

Definition num_eqb (x y : num) : bool :=
  match num_compare x y with Some Eq => true | _ => false end.

Definition num_neg (x : num) : num :=
  match x with
  | NaN => NaN
  | Inf s => Inf (negb s)
  | Fin m e => Fin (- m) e
  end.

Definition num_abs (x : num) : num :=
  match x with
  | NaN => NaN
  | Inf _ => Inf false
  | Fin m e => Fin (Z.abs m) e
  end.

Definition is_nan (x : num) : bool :=
  match x with NaN => true | _ => false end.

(** The numeric literals of the source. *)
Definition zero : num := Fin 0 0.
Definition float_0_2 : spec_float := S754_finite false 7205759403792794 (-55).
Definition float_0_01 : spec_float := S754_finite false 5764607523034235 (-59).

(** [a < k], [a <= k], [a > k], [a >= k] against a numeric literal [k]:
    a [TypeError] when [a] is not a number. *)
Definition lt_num (a : value) (k : num) : exn + bool :=
  match as_num a with
  | Some x => inr (num_ltb x k)
  | None => inl TypeError
  end.

Definition le_num (a : value) (k : num) : exn + bool :=
  match as_num a with
  | Some x => inr (num_leb x k)
  | None => inl TypeError
  end.

Definition gt_num (a : value) (k : num) : exn + bool :=
  match as_num a with
  | Some x => inr (num_ltb k x)
  | None => inl TypeError
  end.

Definition ge_num (a : value) (k : num) : exn + bool :=
  match as_num a with
  | Some x => inr (num_leb k x)
  | None => inl TypeError
  end.

(** [a == b]: never raises; values of unrelated types are unequal. *)
Definition py_eq (a b : value) : bool :=
  match as_num a, as_num b with
  | Some x, Some y => num_eqb x y
  | _, _ =>
      match a, b with
      | VNone, VNone => true
      | VStr s1, VStr s2 => String.eqb s1 s2
      | VProtocolType EQUILIBRATION, VProtocolType EQUILIBRATION => true
      | _, _ => false
      end
  end.

(** [type(a) is bool] *)
Definition type_is_bool (a : value) : bool :=
  match a with VBool _ => true | _ => false end.

(** [a is not None] *)
Definition is_not_None (a : value) : bool :=
  match a with VNone => false | _ => true end.

(** ** pytest.approx

    [approx(0)] with pytest's default tolerances: the relative tolerance
    [1e-6 * |0|] vanishes, so the tolerance is the absolute one, the double
    nearest to [1e-12].  [actual == approx(0)] holds when [actual == 0], and
    otherwise when [abs(0 - actual) <= tolerance]; a value that is not a
    number is compared strictly, hence unequal. *)
Definition approx_tolerance : spec_float :=
  S754_finite false 4951760157141521 (-92).

Definition tolerance : num := num_of_float approx_tolerance.

Definition eq_approx_0 (actual : value) : bool :=
  py_eq actual (VInt 0)
  || match as_num actual with
     | Some x => num_leb (num_abs (num_neg x)) tolerance
     | None => false
     end.

(** ** Methods: state and exceptions *)

(** The instance dictionary of [self] and the warnings issued so far. *)
Record world := World {
  self : gmap string value;
  warnings : list string
}.

(** A method body: it returns or raises, and leaves a state either way. *)
Definition M (A : Type) : Type := world -> (exn + A) * world.

Definition ret {A} (a : A) : M A := fun w => (inr a, w).

Definition bind {A B} (c : M A) (k : A -> M B) : M B :=
  fun w =>
    match c w with
    | (inr a, w') => k a w'
    | (inl e, w') => (inl e, w')
    end.

Declare Scope method_scope.
Delimit Scope method_scope with method.
Bind Scope method_scope with M.

Notation "x <- c ;; k" := (bind c (fun x => k))
  (at level 100, c at next level, right associativity) : method_scope.
Notation "c ;; k" := (bind c (fun _ => k))
  (at level 100, right associativity) : method_scope.

Local Open Scope method_scope.

(** An operator that may raise, used inside a method. *)
Definition eval {A} (r : exn + A) : M A := fun w => (r, w).

(** [warn(msg)] *)
Definition warn (msg : string) : M unit :=
  fun w => (inr tt, World (self w) (warnings w ++ [msg])).

(** [self.name = v] on a plain attribute *)
Definition setattr (name : string) (v : value) : M unit :=
  fun w => (inr tt, World (<[name := v]> (self w)) (warnings w)).

(** [self.name] on a plain attribute: [AttributeError] when it was never
    assigned. *)
Definition getattr (name : string) : M value :=
  fun w =>
    match self w !! name with
    | Some v => (inr v, w)
    | None => (inl AttributeError, w)
    end.

(** ** The class [Equilibration] *)

(** Modelled from the spec: the base class [Protocol] of [.protocol] is not
    among the sources.  Its initialisation is invoked "with protocol kind
    equilibration and the gas-phase flag", which it records; [isGasPhase] is
    the "inherited flag from the base protocol type". *)
Definition Protocol__init__ (protocol_type : ProtocolType) (gas_phase : value)
  : M unit :=
  setattr "_type" (VProtocolType protocol_type) ;;
  setattr "_gas_phase" gas_phase.

(** The texts passed to [warn]. *)
Definition timestep_msg : string :=
  "The time step must be positive. Using default (2 fs).".
Definition runtime_msg : string :=
  "The running time must be positive. Using default (0.2 ns).".
Definition temperature_start_msg : string :=
  "Starting temperature must be positive. Using default (300 K).".
Definition temperature_end_msg : string :=
  "Final temperature must be positive. Using default (300 K).".
Definition is_restrained_msg : string :=
  "Non-boolean backbone restraint flag. Defaulting to no restraint!".
Definition same_temperatures_msg : string :=
  "Start and end temperatures are the same!".

Definition timestep : M value := getattr "_timestep".

Definition timestep_setter (timestep : value) : M unit :=
  b <- eval (le_num timestep zero) ;;
  if b : bool then
    warn timestep_msg ;;
    setattr "_timestep" (VInt 2)
  else
    setattr "_timestep" timestep.

Definition runtime : M value := getattr "_runtime".

Definition runtime_setter (runtime : value) : M unit :=
  b <- eval (le_num runtime zero) ;;
  if b : bool then
    warn runtime_msg ;;
    setattr "_runtime" (VFloat float_0_2)
  else
    setattr "_runtime" runtime.

Definition temperature_start : M value := getattr "_temperature_start".

Definition temperature_start_setter (temperature : value) : M unit :=
  b <- eval (lt_num temperature zero) ;;
  if b : bool then
    warn temperature_start_msg ;;
    setattr "_temperature_start" (VInt 300)
  else if eq_approx_0 temperature then
    setattr "_temperature_start" (VFloat float_0_01)
  else
    setattr "_temperature_start" temperature.

Definition temperature_end : M value := getattr "_temperature_end".

Definition temperature_end_setter (temperature : value) : M unit :=
  b <- eval (lt_num temperature zero) ;;
  if b : bool then
    warn temperature_end_msg ;;
    setattr "_temperature_end" (VInt 300)
  else if eq_approx_0 temperature then
    setattr "_temperature_end" (VFloat float_0_01)
  else
    setattr "_temperature_end" temperature.

Definition is_restrained : M value := getattr "_is_restrained".

Definition is_restrained_setter (restrain_backbone : value) : M unit :=
  if type_is_bool restrain_backbone then
    setattr "_is_restrained" restrain_backbone
  else
    warn is_restrained_msg ;;
    setattr "_is_restrained" (VBool false).

Definition isConstantTemp : M value := getattr "_is_const_temp".

Definition __init__
  (timestep runtime temperature_start temperature_end
   restrain_backbone gas_phase : value) : M unit :=
  Protocol__init__ EQUILIBRATION gas_phase ;;
  timestep_setter timestep ;;
  runtime_setter runtime ;;
  temperature_start_setter temperature_start ;;
  (if is_not_None temperature_end then
     temperature_end_setter temperature_end ;;
     setattr "_is_const_temp" (VBool false) ;;
     t_start <- getattr "_temperature_start" ;;
     t_end <- getattr "_temperature_end" ;;
     if py_eq t_start t_end then
       warn same_temperatures_msg ;;
       setattr "_is_const_temp" (VBool true)
     else
       ret tt
   else
     setattr "_is_const_temp" (VBool true)) ;;
  is_restrained_setter restrain_backbone.

(** The keyword arguments of the constructor and their defaults. *)
Record kwargs := Kwargs {
  kw_timestep : value;
  kw_runtime : value;
  kw_temperature_start : value;
  kw_temperature_end : value;
  kw_restrain_backbone : value;
  kw_gas_phase : value
}.

Definition defaults : kwargs :=
  {| kw_timestep := VInt 2;
     kw_runtime := VFloat float_0_2;
     kw_temperature_start := VInt 300;
     kw_temperature_end := VNone;
     kw_restrain_backbone := VBool false;
     kw_gas_phase := VBool false |}.

(** [Equilibration(...)]: [__init__] on a fresh instance; [ws] are the
    warnings issued before the call. *)
Definition Equilibration (kw : kwargs) (ws : list string) : (exn + unit) * world :=
  __init__ (kw_timestep kw) (kw_runtime kw) (kw_temperature_start kw)
    (kw_temperature_end kw) (kw_restrain_backbone kw) (kw_gas_phase kw)
    (World ∅ ws).

(** A call of one of the five setters on an existing instance. *)
Inductive call :=
| SetTimestep (v : value)
| SetRuntime (v : value)
| SetTemperatureStart (v : value)
| SetTemperatureEnd (v : value)
| SetIsRestrained (v : value).

Definition do_call (c : call) : M unit :=
  match c with
  | SetTimestep v => timestep_setter v
  | SetRuntime v => runtime_setter v
  | SetTemperatureStart v => temperature_start_setter v
  | SetTemperatureEnd v => temperature_end_setter v
  | SetIsRestrained v => is_restrained_setter v
  end.

(** A straight-line sequence of setter calls: the first raise ends it. *)
Fixpoint do_calls (cs : list call) : M unit :=
  match cs with
  | [] => ret tt
  | c :: cs' => do_call c ;; do_calls cs'
  end.

(** ** Vocabulary of the properties

    None of what follows is part of the program: [positive_stored],
    [temperature_stored], [restraint_stored] and their companions name what
    a setter stores and warns, and are tied to the setters by the lemmas
    [timestep_setter_run] to [is_restrained_setter_run] below. *)

(** The attribute written, read back through [get]. *)
Definition read_back {A} (set : M unit) (get : M A) : world -> exn + A :=
  fun w => fst (bind set (fun _ => get) w).

(** The value a numeric setter leaves behind and the warnings it issues, as
    functions of its argument; [n] is the argument read as a number. *)
Definition positive_stored (default t : value) (n : num) : value :=
  if num_leb n zero then default else t.

Definition positive_warned (msg : string) (n : num) : list string :=
  if num_leb n zero then [msg] else [].

Definition temperature_stored (t : value) (n : num) : value :=
  if num_ltb n zero then VInt 300
  else if eq_approx_0 t then VFloat float_0_01
  else t.

Definition temperature_warned (msg : string) (n : num) : list string :=
  if num_ltb n zero then [msg] else [].

Definition restraint_stored (v : value) : value :=
  match v with VBool b => VBool b | _ => VBool false end.

Definition restraint_warned (v : value) : list string :=
  match v with VBool _ => [] | _ => [is_restrained_msg] end.

(** The instance and the warnings once [__init__] has set the start
    temperature; [nt], [nr] and [ns] are the time step, the running time and
    the start temperature read as numbers. *)
Definition started (kw : kwargs) (ws : list string) (nt nr ns : num) : world :=
  World
    (<["_temperature_start" := temperature_stored (kw_temperature_start kw) ns]>
       (<["_runtime" := positive_stored (VFloat float_0_2) (kw_runtime kw) nr]>
          (<["_timestep" := positive_stored (VInt 2) (kw_timestep kw) nt]>
             (<["_gas_phase" := kw_gas_phase kw]>
                (<["_type" := VProtocolType EQUILIBRATION]> ∅)))))
    (((ws ++ positive_warned timestep_msg nt)
        ++ positive_warned runtime_msg nr)
       ++ temperature_warned temperature_start_msg ns).

(** *** Setter calls *)

(** The attribute a setter writes, the value it stores ([None] when it
    raises), and the warnings it issues. *)
Definition written (c : call) : string :=
  match c with
  | SetTimestep _ => "_timestep"
  | SetRuntime _ => "_runtime"
  | SetTemperatureStart _ => "_temperature_start"
  | SetTemperatureEnd _ => "_temperature_end"
  | SetIsRestrained _ => "_is_restrained"
  end.

Definition stored_by (c : call) : option value :=
  match c with
  | SetTimestep t => positive_stored (VInt 2) t <$> as_num t
  | SetRuntime r => positive_stored (VFloat float_0_2) r <$> as_num r
  | SetTemperatureStart t | SetTemperatureEnd t =>
      temperature_stored t <$> as_num t
  | SetIsRestrained v => Some (restraint_stored v)
  end.

Definition warned_by (c : call) : list string :=
  match c with
  | SetTimestep t => from_option (positive_warned timestep_msg) [] (as_num t)
  | SetRuntime r => from_option (positive_warned runtime_msg) [] (as_num r)
  | SetTemperatureStart t =>
      from_option (temperature_warned temperature_start_msg) [] (as_num t)
  | SetTemperatureEnd t =>
      from_option (temperature_warned temperature_end_msg) [] (as_num t)
  | SetIsRestrained v => restraint_warned v
  end.

(** *** Invariants *)

(** A number other than NaN. *)
Definition is_real (v : value) : bool :=
  match as_num v with
  | Some n => negb (is_nan n)
  | None => false
  end.

Definition kwargs_real (kw : kwargs) : Prop :=
  is_real (kw_timestep kw) = true
  /\ is_real (kw_runtime kw) = true
  /\ is_real (kw_temperature_start kw) = true
  /\ (kw_temperature_end kw = VNone \/ is_real (kw_temperature_end kw) = true).

Definition call_real (c : call) : Prop :=
  match c with
  | SetTimestep v | SetRuntime v | SetTemperatureStart v
  | SetTemperatureEnd v => is_real v = true
  | SetIsRestrained _ => True
  end.

(** The invariants as the data model words them: positive time step and
    running time, temperatures of at least [0.01]. *)
Definition stated_invariant (o : gmap string value) : Prop :=
  (exists v, o !! "_timestep" = Some v /\ gt_num v zero = inr true)
  /\ (exists v, o !! "_runtime" = Some v /\ gt_num v zero = inr true)
  /\ (exists v, o !! "_temperature_start" = Some v
                /\ ge_num v (num_of_float float_0_01) = inr true)
  /\ (forall v, o !! "_temperature_end" = Some v ->
                ge_num v (num_of_float float_0_01) = inr true).

(** The invariants the setters keep: positive time step and running time,
    temperatures above the tolerance of [approx(0)]. *)
Definition invariant (o : gmap string value) : Prop :=
  (exists v, o !! "_timestep" = Some v /\ gt_num v zero = inr true)
  /\ (exists v, o !! "_runtime" = Some v /\ gt_num v zero = inr true)
  /\ (exists v, o !! "_temperature_start" = Some v
                /\ gt_num v tolerance = inr true)
  /\ (forall v, o !! "_temperature_end" = Some v ->
                gt_num v tolerance = inr true).

(** *** Calls that return *)

(** An int, a float or a bool. *)
Definition is_number (v : value) : bool :=
  match as_num v with Some _ => true | None => false end.

Definition kwargs_numbers (kw : kwargs) : Prop :=
  is_number (kw_timestep kw) = true
  /\ is_number (kw_runtime kw) = true
  /\ is_number (kw_temperature_start kw) = true
  /\ (kw_temperature_end kw = VNone
      \/ is_number (kw_temperature_end kw) = true).

Definition call_numbers (c : call) : Prop :=
  match c with
  | SetTimestep v | SetRuntime v | SetTemperatureStart v
  | SetTemperatureEnd v => is_number v = true
  | SetIsRestrained _ => True
  end.

Definition sets_temperature_end (c : call) : Prop :=
  written c = "_temperature_end".

(** The attributes every constructed instance has. *)
Definition initialised (o : gmap string value) : Prop :=
  is_Some (o !! "_timestep")
  /\ is_Some (o !! "_runtime")
  /\ is_Some (o !! "_temperature_start")
  /\ is_Some (o !! "_is_restrained")
  /\ is_Some (o !! "_is_const_temp").

(** *** Calls and their getters *)

(** The getter that reads what the setter of [c] writes. *)
Definition getter (c : call) : M value :=
  match c with
  | SetTimestep _ => timestep
  | SetRuntime _ => runtime
  | SetTemperatureStart _ => temperature_start
  | SetTemperatureEnd _ => temperature_end
  | SetIsRestrained _ => is_restrained
  end.

(** The same setter as [c], called on [v]. *)
Definition with_argument (c : call) (v : value) : call :=
  match c with
  | SetTimestep _ => SetTimestep v
  | SetRuntime _ => SetRuntime v
  | SetTemperatureStart _ => SetTemperatureStart v
  | SetTemperatureEnd _ => SetTemperatureEnd v
  | SetIsRestrained _ => SetIsRestrained v
  end.

(** The keyword arguments [kw] with the argument of [c] in the place of the
    parameter its setter validates. *)
Definition supplied (kw : kwargs) (c : call) : kwargs :=
  match c with
  | SetTimestep v =>
      Kwargs v (kw_runtime kw) (kw_temperature_start kw)
        (kw_temperature_end kw) (kw_restrain_backbone kw) (kw_gas_phase kw)
  | SetRuntime v =>
      Kwargs (kw_timestep kw) v (kw_temperature_start kw)
        (kw_temperature_end kw) (kw_restrain_backbone kw) (kw_gas_phase kw)
  | SetTemperatureStart v =>
      Kwargs (kw_timestep kw) (kw_runtime kw) v
        (kw_temperature_end kw) (kw_restrain_backbone kw) (kw_gas_phase kw)
  | SetTemperatureEnd v =>
      Kwargs (kw_timestep kw) (kw_runtime kw) (kw_temperature_start kw)
        v (kw_restrain_backbone kw) (kw_gas_phase kw)
  | SetIsRestrained v =>
      Kwargs (kw_timestep kw) (kw_runtime kw) (kw_temperature_start kw)
        (kw_temperature_end kw) v (kw_gas_phase kw)
  end.

(** *** The constructed instance *)

(** The attribute names [__init__] assigns. *)
Definition constructed_names (kw : kwargs) : gset string :=
  {[ "_type"; "_gas_phase"; "_timestep"; "_runtime"; "_temperature_start";
     "_is_const_temp"; "_is_restrained" ]}
  ∪ (if is_not_None (kw_temperature_end kw) then {[ "_temperature_end" ]}
     else ∅).

(** Both temperatures are stored and compare equal. *)
Definition stored_equal (o : gmap string value) : Prop :=
  exists a b,
    o !! "_temperature_start" = Some a
    /\ o !! "_temperature_end" = Some b
    /\ py_eq a b = true.


(** *** The warning channel *)

(** The method [c] keeps the warnings issued before it and appends at most
    [n], whether it returns or raises. *)
Definition grows {A} (n : nat) (c : M A) : Prop :=
  forall w, exists new,
    warnings (snd (c w)) = (warnings w ++ new)%list /\ (length new <= n)%nat.

(** *** Arguments of the built-in kinds *)

(** [None], a [bool], an [int], a [float] or a [str]: the values whose
    comparison with [0] is Python's own, returning on the three kinds of
    number and raising [TypeError] on [None] and on a [str].  Objects of
    other classes may define the comparison themselves and are left out. *)
Definition is_builtin (v : value) : bool :=
  match v with
  | VNone | VBool _ | VInt _ | VFloat _ | VStr _ => true
  | VProtocolType _ => false
  end.

Definition argument (c : call) : value :=
  match c with
  | SetTimestep v | SetRuntime v | SetTemperatureStart v
  | SetTemperatureEnd v | SetIsRestrained v => v
  end.

Definition call_builtin (c : call) : Prop := is_builtin (argument c) = true.

Definition kwargs_builtin (kw : kwargs) : Prop :=
  is_builtin (kw_timestep kw) = true
  /\ is_builtin (kw_runtime kw) = true
  /\ is_builtin (kw_temperature_start kw) = true
  /\ is_builtin (kw_temperature_end kw) = true.

(** ** Sample arguments *)

(** The double nearest to [1e-13]. *)
Definition float_1e_13 : spec_float := S754_finite false 7922816251426434 (-96).

(** The double [300.0]. *)
Definition float_300 : spec_float := S754_finite false 5277655813324800 (-44).

Definition kw_both_negative : kwargs :=
  {| kw_timestep := VInt 2; kw_runtime := VFloat float_0_2;
     kw_temperature_start := VInt (-5); kw_temperature_end := VInt (-3);
     kw_restrain_backbone := VBool false; kw_gas_phase := VBool false |}.

Definition kw_both_zero : kwargs :=
  {| kw_timestep := VInt 2; kw_runtime := VFloat float_0_2;
     kw_temperature_start := VInt 0; kw_temperature_end := VInt 0;
     kw_restrain_backbone := VBool false; kw_gas_phase := VBool false |}.

(** The double nearest to [0.005]. *)
Definition float_0_005 : spec_float := S754_finite false 5764607523034235 (-60).

Definition kw_cold_start : kwargs :=
  {| kw_timestep := VInt 2; kw_runtime := VFloat float_0_2;
     kw_temperature_start := VFloat float_0_005; kw_temperature_end := VNone;
     kw_restrain_backbone := VBool false; kw_gas_phase := VBool false |}.

Definition kw_nan_timestep : kwargs :=
  {| kw_timestep := VFloat S754_nan; kw_runtime := VFloat float_0_2;
     kw_temperature_start := VInt 300; kw_temperature_end := VNone;
     kw_restrain_backbone := VBool false; kw_gas_phase := VBool false |}.

Definition kw_textual_timestep : kwargs :=
  {| kw_timestep := VStr "2"; kw_runtime := VFloat float_0_2;
     kw_temperature_start := VInt 300; kw_temperature_end := VNone;
     kw_restrain_backbone := VBool false; kw_gas_phase := VBool false |}.

(** * Properties *)

Example default_construction :
  exists o, Equilibration defaults [] = (inr tt, World o [])
    /\ o !! "_timestep" = Some (VInt 2)
    /\ o !! "_temperature_end" = None.
Proof. eexists. split; [reflexivity|]. split; reflexivity. Qed.

(** ** The order on numbers *)

Section NumOrder.

Lemma pow2_pos (k : Z) : 0 <= k -> 0 < 2 ^ k.
Proof. intros Hk. apply Z.pow_pos_nonneg; lia. Qed.

Lemma mul_compare_mono_r (p n m : Z) :
  0 < p -> Z.compare (n * p) (m * p) = Z.compare n m.
Proof.
  intros Hp.
  destruct (Z.compare_spec n m) as [H|H|H].
  - subst. apply Z.compare_refl.
  - apply Z.compare_lt_iff. nia.
  - apply Z.compare_gt_iff. nia.
Qed.

(** Two finite numbers may be compared at any exponent below both. *)
Lemma fin_compare_at (m1 e1 m2 e2 E : Z) :
  E <= e1 -> E <= e2 ->
  num_compare (Fin m1 e1) (Fin m2 e2)
  = Some (Z.compare (m1 * 2 ^ (e1 - E)) (m2 * 2 ^ (e2 - E))).
Proof.
  intros H1 H2. cbn [num_compare]. f_equal.
  set (e := Z.min e1 e2).
  assert (He : E <= e) by (subst e; lia).
  assert (He1 : e <= e1) by (subst e; lia).
  assert (He2 : e <= e2) by (subst e; lia).
  replace (e1 - E) with ((e1 - e) + (e - E)) by lia.
  replace (e2 - E) with ((e2 - e) + (e - E)) by lia.
  rewrite !Z.pow_add_r by lia.
  rewrite !Z.mul_assoc.
  symmetry. apply mul_compare_mono_r. apply pow2_pos. lia.
Qed.

Lemma fin_compare_zero_r (m e : Z) :
  num_compare (Fin m e) zero = Some (Z.compare m 0).
Proof.
  unfold zero. rewrite (fin_compare_at m e 0 0 (Z.min e 0)) by lia.
  f_equal. rewrite Z.mul_0_l.
  rewrite <- (Z.mul_0_l (2 ^ (e - Z.min e 0))).
  apply mul_compare_mono_r. apply pow2_pos. lia.
Qed.

Lemma fin_compare_zero_l (m e : Z) :
  num_compare zero (Fin m e) = Some (Z.compare 0 m).
Proof.
  unfold zero. rewrite (fin_compare_at 0 0 m e (Z.min e 0)) by lia.
  f_equal. rewrite Z.mul_0_l.
  rewrite <- (Z.mul_0_l (2 ^ (e - Z.min e 0))).
  apply mul_compare_mono_r. apply pow2_pos. lia.
Qed.

(** Numbers that compare equal compare alike with every third number. *)
Lemma num_compare_eq_l (x y z : num) :
  num_compare x y = Some Eq -> num_compare x z = num_compare y z.
Proof.
  destruct x as [|s1|m1 e1], y as [|s2|m2 e2]; try discriminate.
  - destruct s1, s2; try discriminate; reflexivity.
  - destruct s1; discriminate.
  - destruct s2; discriminate.
  - intros Heq. destruct z as [|s3|m3 e3]; try reflexivity.
    set (E := Z.min e1 (Z.min e2 e3)).
    rewrite (fin_compare_at m1 e1 m2 e2 E) in Heq by (subst E; lia).
    injection Heq as Heq. apply Z.compare_eq in Heq.
    rewrite (fin_compare_at m1 e1 m3 e3 E) by (subst E; lia).
    rewrite (fin_compare_at m2 e2 m3 e3 E) by (subst E; lia).
    now rewrite Heq.
Qed.

Lemma num_abs_neg_eq (x y : num) :
  num_compare x y = Some Eq ->
  num_compare (num_abs (num_neg x)) (num_abs (num_neg y)) = Some Eq.
Proof.
  destruct x as [|s1|m1 e1], y as [|s2|m2 e2]; try discriminate.
  - reflexivity.
  - destruct s1; discriminate.
  - destruct s2; discriminate.
  - intros Heq. cbn [num_abs num_neg].
    set (E := Z.min e1 e2).
    rewrite (fin_compare_at m1 e1 m2 e2 E) in Heq by (subst E; lia).
    injection Heq as Heq. apply Z.compare_eq in Heq.
    rewrite (fin_compare_at _ e1 _ e2 E) by (subst E; lia).
    f_equal. apply Z.compare_eq_iff.
    rewrite !Z.abs_opp.
    assert (H1 : 0 < 2 ^ (e1 - E)) by (apply pow2_pos; subst E; lia).
    assert (H2 : 0 < 2 ^ (e2 - E)) by (apply pow2_pos; subst E; lia).
    rewrite <- (Z.abs_eq (2 ^ (e1 - E))) at 1 by lia.
    rewrite <- (Z.abs_eq (2 ^ (e2 - E))) at 1 by lia.
    rewrite <- !Z.abs_mul. now rewrite Heq.
Qed.

(** A number that is neither negative nor a NaN is its own magnitude. *)
Lemma num_abs_neg_nonneg (x z : num) :
  num_ltb x zero = false -> is_nan x = false ->
  num_compare (num_abs (num_neg x)) z = num_compare x z.
Proof.
  destruct x as [|s|m e]; try discriminate.
  - destruct s; [discriminate | reflexivity].
  - unfold num_ltb. rewrite fin_compare_zero_r. intros Hm _.
    cbn [num_abs num_neg]. rewrite Z.abs_opp, Z.abs_eq; [reflexivity|].
    destruct (Z.compare_spec m 0); try discriminate; lia.
Qed.

Lemma num_ltb_leb_false (x k : num) :
  is_nan x = false -> is_nan k = false ->
  num_leb x k = false -> num_ltb k x = true.
Proof.
  unfold num_leb, num_ltb.
  destruct x as [|s|m e], k as [|s'|m' e']; try discriminate.
  - destruct s, s'; try discriminate; reflexivity.
  - destruct s; try discriminate; reflexivity.
  - destruct s'; try discriminate; reflexivity.
  - intros _ _.
    rewrite (fin_compare_at m e m' e' (Z.min e e')) by lia.
    rewrite (fin_compare_at m' e' m e (Z.min e e')) by lia.
    rewrite (Z.compare_antisym (m * _)).
    destruct (Z.compare _ _); try discriminate; reflexivity.
Qed.

End NumOrder.

(** ** Running a method *)

Lemma bind_eval {A B} (r : exn + A) (k : A -> M B) (w : world) :
  bind (eval r) k w = match r with inr a => k a w | inl e => (inl e, w) end.
Proof. unfold bind, eval. destruct r; reflexivity. Qed.

Lemma bind_assoc {A B C} (c : M A) (k : A -> M B) (h : B -> M C) (w : world) :
  bind (bind c k) h w = bind c (fun a => bind (k a) h) w.
Proof. unfold bind. destruct (c w) as [[e|a] w']; reflexivity. Qed.

Lemma bind_returns {A B} (c : M A) (k : A -> M B) (w w' : world) (a : A) :
  c w = (inr a, w') -> bind c k w = k a w'.
Proof. intros Hc. unfold bind. now rewrite Hc. Qed.

Lemma bind_raises {A B} (c : M A) (k : A -> M B) (w w' : world) (e : exn) :
  c w = (inl e, w') -> bind c k w = (inl e, w').
Proof. intros Hc. unfold bind. now rewrite Hc. Qed.

Lemma read_back_insert (set : M unit) (name : string) (v : value)
      (o : gmap string value) (ws : list string) (w : world) :
  set w = (inr tt, World (<[name := v]> o) ws) ->
  read_back set (getattr name) w = inr v.
Proof.
  intros Hset. unfold read_back, bind, getattr. rewrite Hset.
  cbn [self]. now rewrite lookup_insert_eq.
Qed.

(** Unfolds one method body down to its state transformer. *)
Ltac run_method :=
  unfold bind, eval, warn, setattr, getattr; cbn [self warnings fst snd].

(** ** The setters, one by one *)

(** C7, as stated for every input, fails: the string ["2"] is not [<= 0]
    (the comparison raises [TypeError]), yet it is not stored as given: the
    setter raises and stores nothing. *)
Lemma timestep_text_not_stored :
  ~ (le_num (VStr "2") zero <> inr true ->
     read_back (timestep_setter (VStr "2")) timestep (World ∅ [])
     = inr (VStr "2")).
Proof.
  intros H. assert (Hle : le_num (VStr "2") zero <> inr true) by discriminate.
  specialize (H Hle). vm_compute in H. discriminate H.
Qed.

(** C7, amended to numeric inputs. For every number [t] handed to the [timestep] setter: when [t <= 0]
    the stored time step becomes the int 2 and the time-step warning is
    appended to the warning channel; otherwise [t] itself is stored and no
    warning is issued.  Either way the call returns normally, no other
    attribute changes, and the getter then reads the stored value. *)
Theorem timestep_setter_spec (t : value) (n : num) (w : world) :
  as_num t = Some n ->
  timestep_setter t w
  = (inr tt,
     if num_leb n zero
     then World (<["_timestep" := VInt 2]> (self w)) (warnings w ++ [timestep_msg])
     else World (<["_timestep" := t]> (self w)) (warnings w))
  /\ read_back (timestep_setter t) timestep w
     = inr (if num_leb n zero then VInt 2 else t).
Proof.
  intros Hn.
  assert (Hrun : timestep_setter t w
    = (inr tt,
       if num_leb n zero
       then World (<["_timestep" := VInt 2]> (self w))
              (warnings w ++ [timestep_msg])
       else World (<["_timestep" := t]> (self w)) (warnings w))).
  { unfold timestep_setter, le_num. rewrite Hn. rewrite bind_eval.
    destruct (num_leb n zero); reflexivity. }
  split; [exact Hrun|].
  destruct (num_leb n zero); exact (read_back_insert _ _ _ _ _ _ Hrun).
Qed.

Lemma timestep_setter_spec_witness :
  timestep_setter (VInt (-3)) (World ∅ [])
  = (inr tt, World (<["_timestep" := VInt 2]> ∅) [timestep_msg])
  /\ read_back (timestep_setter (VInt (-3))) timestep (World ∅ [])
     = inr (VInt 2).
Proof.
  exact (timestep_setter_spec (VInt (-3)) (Fin (-3) 0) (World ∅ []) eq_refl).
Defined.

(** C8, as stated for every input, fails: [None] is not [<= 0] (the
    comparison raises [TypeError]), yet it is not stored as given: the setter
    raises and stores nothing. *)
Lemma runtime_none_not_stored :
  ~ (le_num VNone zero <> inr true ->
     read_back (runtime_setter VNone) runtime (World ∅ []) = inr VNone).
Proof.
  intros H. assert (Hle : le_num VNone zero <> inr true) by discriminate.
  specialize (H Hle). vm_compute in H. discriminate H.
Qed.

(** C8, amended to numeric inputs. For every number [r] handed to the [runtime] setter: when [r <= 0]
    the stored running time becomes the float 0.2 and the running-time
    warning is appended; otherwise [r] itself is stored and no warning is
    issued.  Either way the call returns normally and the getter then reads
    the stored value. *)
Theorem runtime_setter_spec (r : value) (n : num) (w : world) :
  as_num r = Some n ->
  runtime_setter r w
  = (inr tt,
     if num_leb n zero
     then World (<["_runtime" := VFloat float_0_2]> (self w))
            (warnings w ++ [runtime_msg])
     else World (<["_runtime" := r]> (self w)) (warnings w))
  /\ read_back (runtime_setter r) runtime w
     = inr (if num_leb n zero then VFloat float_0_2 else r).
Proof.
  intros Hn.
  assert (Hrun : runtime_setter r w
    = (inr tt,
       if num_leb n zero
       then World (<["_runtime" := VFloat float_0_2]> (self w))
              (warnings w ++ [runtime_msg])
       else World (<["_runtime" := r]> (self w)) (warnings w))).
  { unfold runtime_setter, le_num. rewrite Hn. rewrite bind_eval.
    destruct (num_leb n zero); reflexivity. }
  split; [exact Hrun|].
  destruct (num_leb n zero); exact (read_back_insert _ _ _ _ _ _ Hrun).
Qed.

Lemma runtime_setter_spec_witness :
  runtime_setter (VFloat (S754_zero true)) (World ∅ [])
  = (inr tt, World (<["_runtime" := VFloat float_0_2]> ∅) [runtime_msg])
  /\ read_back (runtime_setter (VFloat (S754_zero true))) runtime (World ∅ [])
     = inr (VFloat float_0_2).
Proof.
  exact (runtime_setter_spec (VFloat (S754_zero true)) (Fin 0 0) (World ∅ [])
           eq_refl).
Defined.

(** C9. For every value handed to the [is_restrained] setter: a value of
    type [bool] is stored as given and nothing is warned; a value of any
    other type stores [False] and appends the restraint warning.  The call
    always returns normally and the getter then reads the stored flag. *)
Theorem is_restrained_setter_spec (v : value) (w : world) :
  is_restrained_setter v w
  = (inr tt,
     match v with
     | VBool b => World (<["_is_restrained" := VBool b]> (self w)) (warnings w)
     | _ => World (<["_is_restrained" := VBool false]> (self w))
              (warnings w ++ [is_restrained_msg])
     end)
  /\ read_back (is_restrained_setter v) is_restrained w
     = inr (match v with VBool b => VBool b | _ => VBool false end).
Proof.
  assert (Hrun : is_restrained_setter v w
    = (inr tt,
       match v with
       | VBool b => World (<["_is_restrained" := VBool b]> (self w)) (warnings w)
       | _ => World (<["_is_restrained" := VBool false]> (self w))
                (warnings w ++ [is_restrained_msg])
       end)).
  { destruct v; reflexivity. }
  split; [exact Hrun|].
  destruct v; exact (read_back_insert _ _ _ _ _ _ Hrun).
Qed.

Example is_restrained_yes (w : world) :
  is_restrained_setter (VStr "yes") w
  = (inr tt, World (<["_is_restrained" := VBool false]> (self w))
               (warnings w ++ [is_restrained_msg])).
Proof. reflexivity. Qed.

Example is_restrained_one (w : world) :
  is_restrained_setter (VInt 1) w
  = (inr tt, World (<["_is_restrained" := VBool false]> (self w))
               (warnings w ++ [is_restrained_msg])).
Proof. reflexivity. Qed.

(** ** The temperature setters *)

Lemma num_compare_antisym (x y : num) :
  num_compare y x = option_map CompOpp (num_compare x y).
Proof.
  destruct x as [|s1|m1 e1], y as [|s2|m2 e2]; try reflexivity.
  - destruct s1, s2; reflexivity.
  - destruct s1; reflexivity.
  - destruct s2; reflexivity.
  - rewrite (fin_compare_at m2 e2 m1 e1 (Z.min e1 e2)) by lia.
    rewrite (fin_compare_at m1 e1 m2 e2 (Z.min e1 e2)) by lia.
    cbn [option_map]. f_equal. apply Z.compare_antisym.
Qed.

Lemma tolerance_positive : num_compare zero tolerance = Some Lt.
Proof. reflexivity. Qed.

(** Above the tolerance is above zero. *)
Lemma above_tolerance_positive (n : num) :
  num_ltb tolerance n = true -> num_ltb zero n = true.
Proof.
  unfold num_ltb. destruct n as [|s|m e]; try discriminate.
  - destruct s; [discriminate | reflexivity].
  - rewrite fin_compare_zero_l. unfold tolerance.
    cbn [num_of_float approx_tolerance].
    set (T := Z.pos 4951760157141521).
    rewrite (fin_compare_at T (-92) m e (Z.min (-92) e)) by lia.
    assert (H1 : 0 < 2 ^ (-92 - Z.min (-92) e)) by (apply pow2_pos; lia).
    assert (H2 : 0 < 2 ^ (e - Z.min (-92) e)) by (apply pow2_pos; lia).
    assert (HT : 0 < T) by (subst T; lia).
    destruct (Z.compare_spec (T * 2 ^ (-92 - Z.min (-92) e))
                             (m * 2 ^ (e - Z.min (-92) e))); try discriminate.
    intros _. assert (Hm : 0 < m) by nia.
    apply Z.compare_lt_iff in Hm. now rewrite Hm.
Qed.

(** What [temperature == approx(0)] decides on a number that is not
    negative: whether it is at most the tolerance. *)
Lemma eq_approx_0_nonneg (s : value) (n : num) :
  as_num s = Some n -> num_ltb n zero = false ->
  eq_approx_0 s = num_leb n tolerance.
Proof.
  intros Hn Hlt. unfold eq_approx_0, py_eq. rewrite Hn. cbn [as_num].
  destruct (is_nan n) eqn:Hnan.
  - destruct n; try discriminate. reflexivity.
  - unfold num_leb at 1. rewrite (num_abs_neg_nonneg n tolerance Hlt Hnan).
    fold (num_leb n tolerance).
    destruct (num_eqb n (Fin 0 0)) eqn:Heq; [|reflexivity].
    unfold num_eqb in Heq.
    destruct (num_compare n (Fin 0 0)) as [[]|] eqn:Hc; try discriminate.
    unfold num_leb. rewrite (num_compare_eq_l _ _ tolerance Hc).
    reflexivity.
Qed.

(** The three branches of a temperature setter, on a number. *)
Lemma temperature_branches (s : value) (n : num) :
  as_num s = Some n ->
  (num_ltb n zero = true -> lt_num s zero = inr true)
  /\ (num_leb zero n = true -> num_leb n tolerance = true ->
      lt_num s zero = inr false /\ eq_approx_0 s = true)
  /\ (num_ltb tolerance n = true ->
      lt_num s zero = inr false /\ eq_approx_0 s = false).
Proof.
  intros Hn. unfold lt_num. rewrite Hn. split; [|split].
  - now intros ->.
  - intros H0 Htol.
    assert (Hlt : num_ltb n zero = false).
    { unfold num_ltb, num_leb in *. rewrite (num_compare_antisym zero n).
      destruct (num_compare zero n) as [[]|]; try discriminate; reflexivity. }
    rewrite Hlt. split; [reflexivity|].
    now rewrite (eq_approx_0_nonneg s n Hn Hlt).
  - intros Htol.
    assert (Hlt : num_ltb n zero = false).
    { apply above_tolerance_positive in Htol.
      unfold num_ltb in *. rewrite (num_compare_antisym zero n).
      destruct (num_compare zero n) as [[]|]; try discriminate; reflexivity. }
    rewrite Hlt. split; [reflexivity|].
    rewrite (eq_approx_0_nonneg s n Hn Hlt).
    unfold num_ltb, num_leb in *. rewrite (num_compare_antisym tolerance n).
    destruct (num_compare tolerance n) as [[]|]; try discriminate; reflexivity.
Qed.

(** C4, as stated, fails: [1e-13 > 0], yet the setter stores [0.01] in its
    place. *)
Lemma temperature_start_positive_not_stored :
  ~ (gt_num (VFloat float_1e_13) zero = inr true ->
     read_back (temperature_start_setter (VFloat float_1e_13))
       temperature_start (World ∅ [])
     = inr (VFloat float_1e_13)).
Proof.
  intros H. specialize (H eq_refl). vm_compute in H. discriminate H.
Qed.

(** C4, amended. For every number [s] handed to the [temperature_start]
    setter: when [s < 0] the stored value becomes the int 300 and the
    starting-temperature warning is appended; when [0 <= s <= 1e-12] (the
    tolerance of [approx(0)], so zero and the positive values next to it)
    the stored value becomes the float 0.01 and nothing is warned; when
    [s > 1e-12] the value [s] is stored unchanged and nothing is warned. *)
Theorem temperature_start_setter_spec (s : value) (n : num) (w : world) :
  as_num s = Some n ->
  (num_ltb n zero = true ->
   temperature_start_setter s w
   = (inr tt, World (<["_temperature_start" := VInt 300]> (self w))
                (warnings w ++ [temperature_start_msg])))
  /\ (num_leb zero n = true -> num_leb n tolerance = true ->
      temperature_start_setter s w
      = (inr tt, World (<["_temperature_start" := VFloat float_0_01]> (self w))
                   (warnings w)))
  /\ (num_ltb tolerance n = true ->
      temperature_start_setter s w
      = (inr tt, World (<["_temperature_start" := s]> (self w)) (warnings w))).
Proof.
  intros Hn. destruct (temperature_branches s n Hn) as (Hneg & Hzero & Hpos).
  unfold temperature_start_setter. rewrite bind_eval.
  split; [|split].
  - intros H. now rewrite (Hneg H).
  - intros H0 Htol. destruct (Hzero H0 Htol) as [-> ->]. reflexivity.
  - intros H. destruct (Hpos H) as [-> ->]. reflexivity.
Qed.

Lemma temperature_start_setter_spec_witness :
  temperature_start_setter (VInt (-5)) (World ∅ [])
  = (inr tt, World (<["_temperature_start" := VInt 300]> ∅)
               [temperature_start_msg])
  /\ temperature_start_setter (VFloat float_1e_13) (World ∅ [])
     = (inr tt, World (<["_temperature_start" := VFloat float_0_01]> ∅) [])
  /\ temperature_start_setter (VFloat float_0_2) (World ∅ [])
     = (inr tt, World (<["_temperature_start" := VFloat float_0_2]> ∅) []).
Proof.
  split; [|split].
  - exact (proj1 (temperature_start_setter_spec (VInt (-5)) (Fin (-5) 0)
                    (World ∅ []) eq_refl) eq_refl).
  - exact (proj1 (proj2 (temperature_start_setter_spec (VFloat float_1e_13)
                           (num_of_float float_1e_13) (World ∅ []) eq_refl))
             eq_refl eq_refl).
  - exact (proj2 (proj2 (temperature_start_setter_spec (VFloat float_0_2)
                           (num_of_float float_0_2) (World ∅ []) eq_refl))
             eq_refl).
Defined.

(** ** What the setters store *)

Lemma timestep_setter_run (t : value) (n : num) (w : world) :
  as_num t = Some n ->
  timestep_setter t w
  = (inr tt, World (<["_timestep" := positive_stored (VInt 2) t n]> (self w))
               (warnings w ++ positive_warned timestep_msg n)).
Proof.
  intros Hn. unfold timestep_setter, le_num, positive_stored, positive_warned.
  rewrite Hn, bind_eval.
  destruct (num_leb n zero); run_method; [reflexivity|].
  now rewrite app_nil_r.
Qed.

Lemma runtime_setter_run (r : value) (n : num) (w : world) :
  as_num r = Some n ->
  runtime_setter r w
  = (inr tt,
     World (<["_runtime" := positive_stored (VFloat float_0_2) r n]> (self w))
       (warnings w ++ positive_warned runtime_msg n)).
Proof.
  intros Hn. unfold runtime_setter, le_num, positive_stored, positive_warned.
  rewrite Hn, bind_eval.
  destruct (num_leb n zero); run_method; [reflexivity|].
  now rewrite app_nil_r.
Qed.

Lemma temperature_start_setter_run (t : value) (n : num) (w : world) :
  as_num t = Some n ->
  temperature_start_setter t w
  = (inr tt,
     World (<["_temperature_start" := temperature_stored t n]> (self w))
       (warnings w ++ temperature_warned temperature_start_msg n)).
Proof.
  intros Hn.
  unfold temperature_start_setter, lt_num, temperature_stored,
    temperature_warned.
  rewrite Hn, bind_eval.
  destruct (num_ltb n zero); run_method; [reflexivity|].
  rewrite app_nil_r. now destruct (eq_approx_0 t).
Qed.

Lemma temperature_end_setter_run (t : value) (n : num) (w : world) :
  as_num t = Some n ->
  temperature_end_setter t w
  = (inr tt,
     World (<["_temperature_end" := temperature_stored t n]> (self w))
       (warnings w ++ temperature_warned temperature_end_msg n)).
Proof.
  intros Hn.
  unfold temperature_end_setter, lt_num, temperature_stored,
    temperature_warned.
  rewrite Hn, bind_eval.
  destruct (num_ltb n zero); run_method; [reflexivity|].
  rewrite app_nil_r. now destruct (eq_approx_0 t).
Qed.

Lemma is_restrained_setter_run (v : value) (w : world) :
  is_restrained_setter v w
  = (inr tt, World (<["_is_restrained" := restraint_stored v]> (self w))
               (warnings w ++ restraint_warned v)).
Proof.
  unfold is_restrained_setter, restraint_stored, restraint_warned.
  destruct v; run_method; rewrite ?app_nil_r; reflexivity.
Qed.

(** A numeric setter raises [TypeError] on anything that is not a number,
    and then leaves the instance as it was. *)
Lemma numeric_setter_raises (t : value) (w : world) :
  as_num t = None ->
  timestep_setter t w = (inl TypeError, w)
  /\ runtime_setter t w = (inl TypeError, w)
  /\ temperature_start_setter t w = (inl TypeError, w)
  /\ temperature_end_setter t w = (inl TypeError, w).
Proof.
  intros Hn.
  unfold timestep_setter, runtime_setter, temperature_start_setter,
    temperature_end_setter, le_num, lt_num.
  rewrite Hn, !bind_eval. auto.
Qed.

(** ** The constructor *)

Section Constructor.

Variable kw : kwargs.
Variable ws : list string.
Variables nt nr ns : num.
Hypothesis Htimestep : as_num (kw_timestep kw) = Some nt.
Hypothesis Hruntime : as_num (kw_runtime kw) = Some nr.
Hypothesis Hstart : as_num (kw_temperature_start kw) = Some ns.

(** The state reached after the start temperature is set. *)
Local Abbreviation w_start := (started kw ws nt nr ns).

Lemma Protocol__init__run (t : ProtocolType) (gas_phase : value) (w : world) :
  Protocol__init__ t gas_phase w
  = (inr tt, World (<["_gas_phase" := gas_phase]>
                      (<["_type" := VProtocolType t]> (self w)))
               (warnings w)).
Proof. reflexivity. Qed.

Lemma init_prefix (k : M unit) :
  (Protocol__init__ EQUILIBRATION (kw_gas_phase kw) ;;
   timestep_setter (kw_timestep kw) ;;
   runtime_setter (kw_runtime kw) ;;
   temperature_start_setter (kw_temperature_start kw) ;;
   k) (World ∅ ws)
  = k w_start.
Proof.
  rewrite (bind_returns _ _ _ _ tt (Protocol__init__run _ _ _)).
  rewrite (bind_returns _ _ _ _ tt (timestep_setter_run _ _ _ Htimestep)).
  rewrite (bind_returns _ _ _ _ tt (runtime_setter_run _ _ _ Hruntime)).
  rewrite (bind_returns _ _ _ _ tt
             (temperature_start_setter_run _ _ _ Hstart)).
  reflexivity.
Qed.

(** Without an end temperature. *)
Lemma init_constant :
  kw_temperature_end kw = VNone ->
  Equilibration kw ws
  = (inr tt,
     World
       (<["_is_restrained" := restraint_stored (kw_restrain_backbone kw)]>
          (<["_is_const_temp" := VBool true]> (self w_start)))
       (warnings w_start ++ restraint_warned (kw_restrain_backbone kw))).
Proof.
  intros Hend. unfold Equilibration, __init__. rewrite Hend.
  cbn [is_not_None]. rewrite init_prefix.
  rewrite (bind_returns (setattr _ _) _ w_start _ tt eq_refl).
  now rewrite is_restrained_setter_run.
Qed.

(** With a numeric end temperature. *)
Lemma init_ramp (ne : num) :
  as_num (kw_temperature_end kw) = Some ne ->
  let t_start := temperature_stored (kw_temperature_start kw) ns in
  let t_end := temperature_stored (kw_temperature_end kw) ne in
  Equilibration kw ws
  = (inr tt,
     World
       (<["_is_restrained" := restraint_stored (kw_restrain_backbone kw)]>
          (<["_is_const_temp" := VBool (py_eq t_start t_end)]>
             (<["_temperature_end" := t_end]> (self w_start))))
       (((warnings w_start ++ temperature_warned temperature_end_msg ne)
           ++ (if py_eq t_start t_end then [same_temperatures_msg] else []))
          ++ restraint_warned (kw_restrain_backbone kw))).
Proof.
  intros Hend t_start t_end. unfold Equilibration, __init__.
  assert (Hnn : is_not_None (kw_temperature_end kw) = true).
  { destruct (kw_temperature_end kw); try discriminate; reflexivity. }
  rewrite Hnn, init_prefix.
  rewrite bind_assoc.
  rewrite (bind_returns _ _ _ _ tt (temperature_end_setter_run _ _ _ Hend)).
  fold t_end. rewrite bind_assoc.
  rewrite (bind_returns (setattr _ _) _ _ _ tt eq_refl).
  rewrite bind_assoc.
  erewrite (bind_returns (getattr "_temperature_start") _ _ _ t_start);
    [|unfold getattr, setattr, started; cbn [self fst snd];
      rewrite !lookup_insert_ne by done; now rewrite lookup_insert_eq].
  rewrite bind_assoc.
  erewrite (bind_returns (getattr "_temperature_end") _ _ _ t_end);
    [|unfold getattr, setattr, started; cbn [self fst snd];
      rewrite !lookup_insert_ne by done; now rewrite lookup_insert_eq].
  destruct (py_eq t_start t_end).
  - rewrite bind_assoc.
    rewrite (bind_returns (warn _) _ _ _ tt eq_refl).
    rewrite (bind_returns (setattr _ _) _ _ _ tt eq_refl).
    rewrite is_restrained_setter_run.
    unfold setattr, warn. cbn [self warnings fst snd].
    now rewrite insert_insert_eq.
  - rewrite (bind_returns (ret _) _ _ _ tt eq_refl).
    rewrite is_restrained_setter_run. unfold setattr.
    cbn [self warnings fst snd]. now rewrite app_nil_r.
Qed.

End Constructor.

(** ** The constant-temperature flag at construction *)

Lemma isConstantTemp_constructed (o : gmap string value) (b : bool)
      (r : value) (ws : list string) :
  isConstantTemp
    (World (<["_is_restrained" := r]> (<["_is_const_temp" := VBool b]> o)) ws)
  = (inr (VBool b),
     World (<["_is_restrained" := r]> (<["_is_const_temp" := VBool b]> o)) ws).
Proof.
  unfold isConstantTemp, getattr. cbn [self].
  rewrite lookup_insert_ne by done. now rewrite lookup_insert_eq.
Qed.

Lemma read_back_temperature_start (t : value) (w : world) :
  read_back (temperature_start_setter t) temperature_start w
  = match as_num t with
    | Some n => inr (temperature_stored t n)
    | None => inl TypeError
    end.
Proof.
  destruct (as_num t) as [n|] eqn:Hn.
  - exact (read_back_insert _ _ _ _ _ _ (temperature_start_setter_run t n w Hn)).
  - unfold read_back.
    destruct (numeric_setter_raises t w Hn) as (_ & _ & Hs & _).
    now rewrite (bind_raises _ _ _ _ _ Hs).
Qed.

Lemma read_back_temperature_end (t : value) (w : world) :
  read_back (temperature_end_setter t) temperature_end w
  = match as_num t with
    | Some n => inr (temperature_stored t n)
    | None => inl TypeError
    end.
Proof.
  destruct (as_num t) as [n|] eqn:Hn.
  - exact (read_back_insert _ _ _ _ _ _ (temperature_end_setter_run t n w Hn)).
  - unfold read_back.
    destruct (numeric_setter_raises t w Hn) as (_ & _ & _ & He).
    now rewrite (bind_raises _ _ _ _ _ He).
Qed.

(** Equal temperatures are stored as equal temperatures. *)
Lemma temperature_stored_eq (ts te : value) (ns ne : num) :
  as_num ts = Some ns -> as_num te = Some ne ->
  num_compare ns ne = Some Eq ->
  py_eq (temperature_stored ts ns) (temperature_stored te ne) = true.
Proof.
  intros Hs He Heq. unfold temperature_stored.
  assert (Hlt : num_ltb ns zero = num_ltb ne zero).
  { unfold num_ltb. now rewrite (num_compare_eq_l _ _ zero Heq). }
  assert (Happrox : eq_approx_0 ts = eq_approx_0 te).
  { unfold eq_approx_0, py_eq. rewrite Hs, He. cbn [as_num].
    unfold num_eqb, num_leb.
    rewrite (num_compare_eq_l _ _ (Fin 0 0) Heq).
    now rewrite (num_compare_eq_l _ _ tolerance (num_abs_neg_eq _ _ Heq)). }
  rewrite <- Hlt, <- Happrox.
  destruct (num_ltb ns zero); [reflexivity|].
  destruct (eq_approx_0 ts); [reflexivity|].
  unfold py_eq, num_eqb. now rewrite Hs, He, Heq.
Qed.

(** C5. Constructing with an end temperature that is supplied and equal to
    the start temperature (the other arguments being numbers) returns an
    instance on which [isConstantTemp()] is [True], and the construction
    issues the warning that start and end temperatures are the same. *)
Theorem equal_temperatures_constant (kw : kwargs) (ws : list string)
        (nt nr ns : num) :
  as_num (kw_timestep kw) = Some nt ->
  as_num (kw_runtime kw) = Some nr ->
  as_num (kw_temperature_start kw) = Some ns ->
  py_eq (kw_temperature_start kw) (kw_temperature_end kw) = true ->
  exists o new,
    Equilibration kw ws = (inr tt, World o (ws ++ new))
    /\ fst (isConstantTemp (World o (ws ++ new))) = inr (VBool true)
    /\ In same_temperatures_msg new.
Proof.
  intros Ht Hr Hs Heq.
  destruct (as_num (kw_temperature_end kw)) as [ne|] eqn:He.
  2:{ unfold py_eq in Heq. rewrite Hs, He in Heq.
      destruct (kw_temperature_start kw); discriminate. }
  assert (Hc : num_compare ns ne = Some Eq).
  { unfold py_eq, num_eqb in Heq. rewrite Hs, He in Heq.
    destruct (num_compare ns ne) as [[]|]; try discriminate; reflexivity. }
  pose proof (temperature_stored_eq _ _ _ _ Hs He Hc) as Hstored.
  pose proof (init_ramp kw ws nt nr ns Ht Hr Hs ne He) as Hrun.
  cbv zeta in Hrun. rewrite Hstored in Hrun.
  unfold started in Hrun. cbn [self warnings] in Hrun.
  rewrite <- !app_assoc in Hrun.
  eexists _, _. split; [exact Hrun|]. split.
  - now rewrite isConstantTemp_constructed.
  - rewrite !in_app_iff. do 4 right. left. now left.
Qed.

Lemma equal_temperatures_constant_witness :
  exists o new,
    Equilibration
      {| kw_timestep := VInt 2; kw_runtime := VFloat float_0_2;
         kw_temperature_start := VInt 300;
         kw_temperature_end := VFloat float_300;
         kw_restrain_backbone := VBool false; kw_gas_phase := VBool false |} []
    = (inr tt, World o ([] ++ new))
    /\ fst (isConstantTemp (World o ([] ++ new))) = inr (VBool true)
    /\ In same_temperatures_msg new.
Proof.
  exact (equal_temperatures_constant
           {| kw_timestep := VInt 2; kw_runtime := VFloat float_0_2;
              kw_temperature_start := VInt 300;
              kw_temperature_end := VFloat float_300;
              kw_restrain_backbone := VBool false;
              kw_gas_phase := VBool false |} []
           (Fin 2 0) (num_of_float float_0_2) (Fin 300 0)
           eq_refl eq_refl eq_refl eq_refl).
Defined.

(** C6. Constructing with [temperature_end = None] (the other arguments
    being numbers) returns an instance on which [isConstantTemp()] is
    [True].  This branch warns of nothing: the warnings of the construction
    are those of the four setters it calls, so neither the equal-temperatures
    warning nor the final-temperature warning is among them, and with
    arguments that need no replacement nothing is warned at all. *)
Theorem absent_end_constant (kw : kwargs) (ws : list string) (nt nr ns : num) :
  as_num (kw_timestep kw) = Some nt ->
  as_num (kw_runtime kw) = Some nr ->
  as_num (kw_temperature_start kw) = Some ns ->
  kw_temperature_end kw = VNone ->
  exists o new,
    Equilibration kw ws = (inr tt, World o (ws ++ new))
    /\ fst (isConstantTemp (World o (ws ++ new))) = inr (VBool true)
    /\ new = (positive_warned timestep_msg nt
               ++ positive_warned runtime_msg nr
               ++ temperature_warned temperature_start_msg ns
               ++ restraint_warned (kw_restrain_backbone kw))%list
    /\ ~ In same_temperatures_msg new
    /\ ~ In temperature_end_msg new
    /\ (num_leb nt zero = false -> num_leb nr zero = false ->
        num_ltb ns zero = false ->
        type_is_bool (kw_restrain_backbone kw) = true -> new = []).
Proof.
  intros Ht Hr Hs He.
  pose proof (init_constant kw ws nt nr ns Ht Hr Hs He) as Hrun.
  unfold started in Hrun. cbn [self warnings] in Hrun.
  rewrite <- !app_assoc in Hrun.
  eexists _, _. split; [exact Hrun|]. split; [|split; [reflexivity|]].
  { now rewrite isConstantTemp_constructed. }
  unfold positive_warned, temperature_warned, restraint_warned.
  split; [|split].
  - rewrite !in_app_iff.
    intros [H|[H|[H|H]]]; revert H;
      [destruct (num_leb nt zero) | destruct (num_leb nr zero)
      | destruct (num_ltb ns zero) | destruct (kw_restrain_backbone kw)];
      cbn; intros H; decompose [or] H; try discriminate; auto.
  - rewrite !in_app_iff.
    intros [H|[H|[H|H]]]; revert H;
      [destruct (num_leb nt zero) | destruct (num_leb nr zero)
      | destruct (num_ltb ns zero) | destruct (kw_restrain_backbone kw)];
      cbn; intros H; decompose [or] H; try discriminate; auto.
  - intros -> -> -> Hb.
    destruct (kw_restrain_backbone kw); try discriminate Hb. reflexivity.
Qed.

Lemma absent_end_constant_witness :
  exists o new,
    Equilibration defaults [] = (inr tt, World o ([] ++ new))
    /\ fst (isConstantTemp (World o ([] ++ new))) = inr (VBool true)
    /\ new = ([] ++ [] ++ [] ++ [])%list
    /\ ~ In same_temperatures_msg new
    /\ ~ In temperature_end_msg new
    /\ (false = false -> false = false -> false = false -> true = true ->
        new = []).
Proof.
  exact (absent_end_constant defaults []
           (Fin 2 0) (num_of_float float_0_2) (Fin 300 0)
           eq_refl eq_refl eq_refl eq_refl).
Defined.

(** C10. The constant-temperature decision is taken on the temperatures as
    stored by the two setters, not on the arguments: whenever an end
    temperature is supplied and the values [a] and [b] that the start and
    end setters store are equal, the constructed instance answers [True] to
    [isConstantTemp()] and the equal-temperatures warning is issued; in
    general the flag is [a == b]. *)
Theorem constant_decided_on_stored (kw : kwargs) (ws : list string)
        (nt nr : num) (a b : value) (w0 : world) :
  as_num (kw_timestep kw) = Some nt ->
  as_num (kw_runtime kw) = Some nr ->
  read_back (temperature_start_setter (kw_temperature_start kw))
    temperature_start w0 = inr a ->
  read_back (temperature_end_setter (kw_temperature_end kw))
    temperature_end w0 = inr b ->
  exists o new,
    Equilibration kw ws = (inr tt, World o (ws ++ new))
    /\ o !! "_temperature_start" = Some a
    /\ o !! "_temperature_end" = Some b
    /\ fst (isConstantTemp (World o (ws ++ new))) = inr (VBool (py_eq a b))
    /\ (py_eq a b = true -> In same_temperatures_msg new).
Proof.
  intros Ht Hr Ha Hb.
  rewrite read_back_temperature_start in Ha.
  rewrite read_back_temperature_end in Hb.
  destruct (as_num (kw_temperature_start kw)) as [ns|] eqn:Hs;
    [|discriminate Ha].
  destruct (as_num (kw_temperature_end kw)) as [ne|] eqn:He;
    [|discriminate Hb].
  injection Ha as <-. injection Hb as <-.
  pose proof (init_ramp kw ws nt nr ns Ht Hr Hs ne He) as Hrun.
  cbv zeta in Hrun.
  unfold started in Hrun. cbn [self warnings] in Hrun.
  rewrite <- !app_assoc in Hrun.
  eexists _, _. split; [exact Hrun|].
  split; [|split; [|split]].
  - rewrite !lookup_insert_ne by done. now rewrite lookup_insert_eq.
  - rewrite !lookup_insert_ne by done. now rewrite lookup_insert_eq.
  - now rewrite isConstantTemp_constructed.
  - intros ->. rewrite !in_app_iff. do 4 right. left. now left.
Qed.

Lemma constant_decided_on_stored_witness :
  exists o new,
    Equilibration kw_both_negative [] = (inr tt, World o ([] ++ new))
    /\ o !! "_temperature_start" = Some (VInt 300)
    /\ o !! "_temperature_end" = Some (VInt 300)
    /\ fst (isConstantTemp (World o ([] ++ new))) = inr (VBool true)
    /\ (true = true -> In same_temperatures_msg new).
Proof.
  exact (constant_decided_on_stored kw_both_negative []
           (Fin 2 0) (num_of_float float_0_2) (VInt 300) (VInt 300)
           (World ∅ []) eq_refl eq_refl eq_refl eq_refl).
Defined.

Example both_negative_constant :
  exists o,
    Equilibration kw_both_negative []
    = (inr tt, World o [temperature_start_msg; temperature_end_msg;
                        same_temperatures_msg])
    /\ o !! "_is_const_temp" = Some (VBool true).
Proof. eexists. split; reflexivity. Qed.

Example both_zero_constant :
  exists o,
    Equilibration kw_both_zero [] = (inr tt, World o [same_temperatures_msg])
    /\ o !! "_temperature_start" = Some (VFloat float_0_01)
    /\ o !! "_temperature_end" = Some (VFloat float_0_01)
    /\ o !! "_is_const_temp" = Some (VBool true).
Proof. eexists. repeat split; reflexivity. Qed.

(** ** Setter calls on an instance *)

Lemma do_call_returns (c : call) (v : value) (w : world) :
  stored_by c = Some v ->
  do_call c w
  = (inr tt, World (<[written c := v]> (self w)) (warnings w ++ warned_by c)).
Proof.
  destruct c as [t|t|t|t|t]; cbn [stored_by written warned_by do_call];
    try (destruct (as_num t) as [n|] eqn:Hn; [|discriminate]);
    cbn; intros [= <-].
  - now apply timestep_setter_run.
  - now apply runtime_setter_run.
  - now apply temperature_start_setter_run.
  - now apply temperature_end_setter_run.
  - apply is_restrained_setter_run.
Qed.

Lemma do_call_raises (c : call) (w : world) :
  stored_by c = None -> do_call c w = (inl TypeError, w).
Proof.
  destruct c as [t|t|t|t|t]; cbn [stored_by do_call];
    try (destruct (as_num t) as [n|] eqn:Hn; [discriminate|]; intros _;
         destruct (numeric_setter_raises t w Hn) as (H1 & H2 & H3 & H4);
         assumption).
  discriminate.
Qed.

(** A setter changes no attribute but its own, whether it returns or
    raises. *)
Lemma do_call_frame (c : call) (w : world) (k : string) :
  k <> written c -> self (snd (do_call c w)) !! k = self w !! k.
Proof.
  intros Hk. destruct (stored_by c) as [v|] eqn:Hc.
  - rewrite (do_call_returns c v w Hc). cbn [snd self].
    now rewrite lookup_insert_ne by congruence.
  - now rewrite (do_call_raises c w Hc).
Qed.

Lemma do_calls_frame (cs : list call) (w : world) (k : string) :
  (forall c, In c cs -> k <> written c) ->
  self (snd (do_calls cs w)) !! k = self w !! k.
Proof.
  revert w. induction cs as [|c cs IH]; intros w Hk; [reflexivity|].
  cbn [do_calls]. unfold bind.
  pose proof (do_call_frame c w k (Hk c (or_introl eq_refl))) as Hc.
  destruct (do_call c w) as [[e|[]] w1]; cbn [snd] in Hc |- *.
  - exact Hc.
  - rewrite IH; [exact Hc|]. intros c' Hin. apply Hk. now right.
Qed.

Lemma flag_not_written (c : call) : "_is_const_temp" <> written c.
Proof. destruct c; discriminate. Qed.

(** ** Constructions that return *)

(** When [__init__] returns, its numeric arguments were numbers, and an end
    temperature was a number or absent. *)
Lemma constructed_arguments (kw : kwargs) (ws : list string) (w : world) :
  Equilibration kw ws = (inr tt, w) ->
  exists nt nr ns,
    as_num (kw_timestep kw) = Some nt
    /\ as_num (kw_runtime kw) = Some nr
    /\ as_num (kw_temperature_start kw) = Some ns
    /\ (kw_temperature_end kw = VNone
        \/ exists ne, as_num (kw_temperature_end kw) = Some ne).
Proof.
  unfold Equilibration, __init__. intros Hrun.
  rewrite (bind_returns _ _ _ _ tt (Protocol__init__run _ _ _)) in Hrun.
  destruct (as_num (kw_timestep kw)) as [nt|] eqn:Ht.
  2:{ destruct (numeric_setter_raises _
        (World (<["_gas_phase" := kw_gas_phase kw]>
                  (<["_type" := VProtocolType EQUILIBRATION]> ∅)) ws) Ht)
        as (H & _).
      cbn [self warnings] in Hrun.
      rewrite (bind_raises _ _ _ _ _ H) in Hrun. discriminate Hrun. }
  rewrite (bind_returns _ _ _ _ tt (timestep_setter_run _ _ _ Ht)) in Hrun.
  destruct (as_num (kw_runtime kw)) as [nr|] eqn:Hr.
  2:{ match type of Hrun with bind _ _ ?w0 = _ =>
        destruct (numeric_setter_raises _ w0 Hr) as (_ & H & _) end.
      rewrite (bind_raises _ _ _ _ _ H) in Hrun. discriminate Hrun. }
  rewrite (bind_returns _ _ _ _ tt (runtime_setter_run _ _ _ Hr)) in Hrun.
  destruct (as_num (kw_temperature_start kw)) as [ns|] eqn:Hs.
  2:{ match type of Hrun with bind _ _ ?w0 = _ =>
        destruct (numeric_setter_raises _ w0 Hs) as (_ & _ & H & _) end.
      rewrite (bind_raises _ _ _ _ _ H) in Hrun. discriminate Hrun. }
  rewrite (bind_returns _ _ _ _ tt (temperature_start_setter_run _ _ _ Hs))
    in Hrun.
  exists nt, nr, ns. repeat split.
  destruct (as_num (kw_temperature_end kw)) as [ne|] eqn:He; [right; eauto|].
  destruct (is_not_None (kw_temperature_end kw)) eqn:Hnn.
  2:{ left. destruct (kw_temperature_end kw); try discriminate; reflexivity. }
  exfalso. rewrite bind_assoc in Hrun.
  match type of Hrun with bind _ _ ?w0 = _ =>
    destruct (numeric_setter_raises _ w0 He) as (_ & _ & _ & H) end.
  rewrite (bind_raises _ _ _ _ _ H) in Hrun. discriminate Hrun.
Qed.

(** A constructed instance carries its constant-temperature flag. *)
Lemma constructed_flag (kw : kwargs) (ws : list string) (w : world) :
  Equilibration kw ws = (inr tt, w) ->
  exists b, self w !! "_is_const_temp" = Some (VBool b).
Proof.
  intros Hrun.
  destruct (constructed_arguments kw ws w Hrun)
    as (nt & nr & ns & Ht & Hr & Hs & [He|[ne He]]).
  - rewrite (init_constant kw ws nt nr ns Ht Hr Hs He) in Hrun.
    injection Hrun as <-. exists true. cbn [self].
    rewrite lookup_insert_ne by done. now rewrite lookup_insert_eq.
  - pose proof (init_ramp kw ws nt nr ns Ht Hr Hs ne He) as Hramp.
    cbv zeta in Hramp. rewrite Hramp in Hrun.
    injection Hrun as <-. eexists. cbn [self].
    rewrite lookup_insert_ne by done. now rewrite lookup_insert_eq.
Qed.

(** C2. [isConstantTemp()] returns the flag computed at construction: on
    every constructed instance it returns a boolean, and after every
    sequence of setter calls (the temperature setters among them, with any
    arguments, returning or raising) it returns that same boolean.  The
    [temperature_end] setter writes the attribute [_temperature_end] and no
    other, so it never recomputes the flag. *)
Theorem flag_fixed_at_construction (kw : kwargs) (ws : list string) (w : world)
        (cs : list call) :
  Equilibration kw ws = (inr tt, w) ->
  (exists b,
     fst (isConstantTemp w) = inr (VBool b)
     /\ fst (isConstantTemp (snd (do_calls cs w))) = inr (VBool b))
  /\ (forall (t : value) (w' : world) (k : string),
        k <> "_temperature_end" ->
        self (snd (temperature_end_setter t w')) !! k = self w' !! k).
Proof.
  intros Hrun. split.
  - destruct (constructed_flag kw ws w Hrun) as [b Hb]. exists b.
    unfold isConstantTemp, getattr.
    rewrite (do_calls_frame cs w "_is_const_temp")
      by (intros c _; apply flag_not_written).
    rewrite Hb. split; reflexivity.
  - intros t w' k Hk. exact (do_call_frame (SetTemperatureEnd t) w' k Hk).
Qed.

Lemma flag_fixed_at_construction_witness :
  (exists b,
     fst (isConstantTemp (snd (Equilibration defaults []))) = inr (VBool b)
     /\ fst (isConstantTemp
               (snd (do_calls [SetTemperatureEnd (VInt 350);
                               SetTemperatureStart (VInt 350);
                               SetTemperatureEnd (VStr "warm")]
                       (snd (Equilibration defaults [])))))
        = inr (VBool b))
  /\ (forall (t : value) (w' : world) (k : string),
        k <> "_temperature_end" ->
        self (snd (temperature_end_setter t w')) !! k = self w' !! k).
Proof.
  exact (flag_fixed_at_construction defaults []
           (snd (Equilibration defaults [])) _ eq_refl).
Defined.

(** ** Invariants of the stored values *)

Lemma is_real_num (v : value) :
  is_real v = true -> exists n, as_num v = Some n /\ is_nan n = false.
Proof.
  unfold is_real. destruct (as_num v) as [n|]; [|discriminate].
  intros H. exists n. split; [reflexivity|]. now destruct (is_nan n).
Qed.

Lemma positive_stored_positive (default t : value) (n : num) :
  gt_num default zero = inr true ->
  as_num t = Some n -> is_nan n = false ->
  gt_num (positive_stored default t n) zero = inr true.
Proof.
  intros Hd Hn Hnan. unfold positive_stored.
  destruct (num_leb n zero) eqn:Hle; [exact Hd|].
  unfold gt_num. rewrite Hn. f_equal.
  now apply num_ltb_leb_false.
Qed.

Lemma temperature_stored_above_tolerance (t : value) (n : num) :
  as_num t = Some n -> is_nan n = false ->
  gt_num (temperature_stored t n) tolerance = inr true.
Proof.
  intros Hn Hnan. unfold temperature_stored.
  destruct (num_ltb n zero) eqn:Hlt; [reflexivity|].
  rewrite (eq_approx_0_nonneg t n Hn Hlt).
  destruct (num_leb n tolerance) eqn:Hle; [reflexivity|].
  unfold gt_num. rewrite Hn. f_equal.
  now apply num_ltb_leb_false.
Qed.

(** What a setter stores on a real argument satisfies the invariant of the
    attribute it writes. *)
Lemma stored_by_real (c : call) :
  call_real c ->
  exists v, stored_by c = Some v
    /\ match c with
       | SetTimestep _ | SetRuntime _ => gt_num v zero = inr true
       | SetTemperatureStart _ | SetTemperatureEnd _ =>
           gt_num v tolerance = inr true
       | SetIsRestrained _ => True
       end.
Proof.
  destruct c as [t|t|t|t|t]; cbn [call_real stored_by];
    try (intros Hreal; destruct (is_real_num t Hreal) as (n & Hn & Hnan);
         rewrite Hn; cbn; eexists; split; [reflexivity|]).
  - now apply positive_stored_positive.
  - now apply positive_stored_positive.
  - now apply temperature_stored_above_tolerance.
  - now apply temperature_stored_above_tolerance.
  - intros _. eexists. split; reflexivity.
Qed.

Lemma do_call_invariant (c : call) (w : world) :
  call_real c -> invariant (self w) ->
  exists w', do_call c w = (inr tt, w') /\ invariant (self w').
Proof.
  intros Hreal (Ht & Hr & Hs & He).
  destruct (stored_by_real c Hreal) as (v & Hv & Hok).
  eexists. split; [exact (do_call_returns c v w Hv)|].
  cbn [self]. unfold invariant.
  destruct c; cbn [written];
    repeat match goal with
      | |- _ /\ _ => split
      | |- context [<[?k := _]> _ !! ?k] => rewrite lookup_insert_eq
      | |- context [<[_ := _]> _ !! _] => rewrite lookup_insert_ne by done
      end;
    try assumption; try (eexists; split; [reflexivity | exact Hok]).
  intros v' [= <-]. exact Hok.
Qed.

Lemma do_calls_invariant (cs : list call) (w : world) :
  Forall call_real cs -> invariant (self w) ->
  exists w', do_calls cs w = (inr tt, w') /\ invariant (self w').
Proof.
  intros Hcs. revert w. induction Hcs as [|c cs Hc _ IH]; intros w Hinv.
  - exists w. split; [reflexivity | exact Hinv].
  - destruct (do_call_invariant c w Hc Hinv) as (w1 & Hrun & Hinv1).
    destruct (IH w1 Hinv1) as (w' & Hruns & Hinv').
    exists w'. split; [|exact Hinv'].
    cbn [do_calls]. now rewrite (bind_returns _ _ _ _ tt Hrun).
Qed.

Lemma constructed_invariant (kw : kwargs) (ws : list string) :
  kwargs_real kw ->
  exists w, Equilibration kw ws = (inr tt, w) /\ invariant (self w).
Proof.
  intros (Ht & Hr & Hs & He).
  destruct (is_real_num _ Ht) as (nt & Hnt & Hnant).
  destruct (is_real_num _ Hr) as (nr & Hnr & Hnanr).
  destruct (is_real_num _ Hs) as (ns & Hns & Hnans).
  pose proof (positive_stored_positive (VInt 2) _ nt eq_refl Hnt Hnant) as Pt.
  pose proof (positive_stored_positive (VFloat float_0_2) _ nr eq_refl Hnr Hnanr)
    as Pr.
  pose proof (temperature_stored_above_tolerance _ ns Hns Hnans) as Ps.
  destruct He as [He|He].
  - eexists. split; [exact (init_constant kw ws nt nr ns Hnt Hnr Hns He)|].
    unfold started, invariant. cbn [self].
    repeat split.
    + eexists. rewrite !lookup_insert_ne by done.
      rewrite lookup_insert_eq. split; [reflexivity | exact Pt].
    + eexists. rewrite !lookup_insert_ne by done.
      rewrite lookup_insert_eq. split; [reflexivity | exact Pr].
    + eexists. rewrite !lookup_insert_ne by done.
      rewrite lookup_insert_eq. split; [reflexivity | exact Ps].
    + intros v. rewrite !lookup_insert_ne by done.
      rewrite lookup_empty. discriminate.
  - destruct (is_real_num _ He) as (ne & Hne & Hnane).
    pose proof (temperature_stored_above_tolerance _ ne Hne Hnane) as Pe.
    eexists. split; [exact (init_ramp kw ws nt nr ns Hnt Hnr Hns ne Hne)|].
    unfold started, invariant. cbn [self].
    repeat split.
    + eexists. rewrite !lookup_insert_ne by done.
      rewrite lookup_insert_eq. split; [reflexivity | exact Pt].
    + eexists. rewrite !lookup_insert_ne by done.
      rewrite lookup_insert_eq. split; [reflexivity | exact Pr].
    + eexists. rewrite !lookup_insert_ne by done.
      rewrite lookup_insert_eq. split; [reflexivity | exact Ps].
    + intros v. rewrite !lookup_insert_ne by done.
      rewrite lookup_insert_eq. intros [= <-]. exact Pe.
Qed.

(** C3, as stated, fails: a start temperature of [0.005] is neither negative
    nor within [1e-12] of zero, so it is stored as given, below [0.01]; and a
    NaN time step is not [<= 0], so it is stored as given and is not [> 0]. *)
Lemma stated_invariant_fails :
  (exists w,
     Equilibration kw_cold_start [] = (inr tt, w)
     /\ ~ stated_invariant (self w))
  /\ (exists w,
        Equilibration kw_nan_timestep [] = (inr tt, w)
        /\ ~ stated_invariant (self w)).
Proof.
  split; (eexists; split; [reflexivity|]).
  - intros (_ & _ & (v & Hv & Hge) & _).
    vm_compute in Hv. injection Hv as <-.
    vm_compute in Hge. discriminate Hge.
  - intros ((v & Hv & Hgt) & _).
    vm_compute in Hv. injection Hv as <-.
    vm_compute in Hgt. discriminate Hgt.
Qed.

(** C3, amended. When every numeric argument is a number other than NaN,
    construction returns, every sequence of setter calls returns, and after
    construction as after the calls the instance satisfies: [timestep > 0],
    [runtime > 0], [temperature_start > 1e-12], and [temperature_end > 1e-12]
    whenever it is present ([1e-12] being the tolerance of [approx(0)]). *)
Theorem invariant_kept (kw : kwargs) (ws : list string) (cs : list call) :
  kwargs_real kw -> Forall call_real cs ->
  exists w0 w,
    Equilibration kw ws = (inr tt, w0)
    /\ invariant (self w0)
    /\ do_calls cs w0 = (inr tt, w)
    /\ invariant (self w).
Proof.
  intros Hkw Hcs.
  destruct (constructed_invariant kw ws Hkw) as (w0 & Hrun & Hinv0).
  destruct (do_calls_invariant cs w0 Hcs Hinv0) as (w & Hruns & Hinv).
  now exists w0, w.
Qed.

Lemma invariant_kept_witness :
  exists w0 w,
    Equilibration kw_cold_start [] = (inr tt, w0)
    /\ invariant (self w0)
    /\ do_calls [SetTimestep (VInt (-1)); SetTemperatureEnd (VInt 0);
                 SetIsRestrained (VStr "yes")] w0 = (inr tt, w)
    /\ invariant (self w).
Proof.
  apply (invariant_kept kw_cold_start []).
  - repeat split; try reflexivity. now left.
  - repeat constructor.
Defined.

(** The temperatures of the invariant are positive. *)
Lemma invariant_temperature_positive (o : gmap string value) :
  invariant o ->
  (exists v, o !! "_temperature_start" = Some v /\ gt_num v zero = inr true)
  /\ (forall v, o !! "_temperature_end" = Some v -> gt_num v zero = inr true).
Proof.
  assert (Hpos : forall v, gt_num v tolerance = inr true ->
                           gt_num v zero = inr true).
  { intros v. unfold gt_num. destruct (as_num v) as [n|]; [|discriminate].
    intros [= H]. f_equal. now apply above_tolerance_positive. }
  intros (_ & _ & (v & Hv & Hs) & He). split.
  - exists v. split; [exact Hv | now apply Hpos].
  - intros v' Hv'. apply Hpos. now apply He.
Qed.

(** A NaN passes every comparison untouched and is stored as given. *)
Example timestep_nan_stored :
  timestep_setter (VFloat S754_nan) (World ∅ [])
  = (inr tt, World (<["_timestep" := VFloat S754_nan]> ∅) [])
  /\ gt_num (VFloat S754_nan) zero = inr false.
Proof. split; reflexivity. Qed.

(** ** Which calls return *)

Lemma is_number_num (v : value) :
  is_number v = true -> exists n, as_num v = Some n.
Proof.
  unfold is_number. destruct (as_num v) as [n|]; [eauto | discriminate].
Qed.

Lemma getattr_returns (name : string) (w : world) :
  is_Some (self w !! name) -> exists v, getattr name w = (inr v, w).
Proof. intros [v Hv]. exists v. unfold getattr. now rewrite Hv. Qed.

Lemma stored_by_numbers (c : call) :
  call_numbers c -> is_Some (stored_by c).
Proof.
  destruct c as [t|t|t|t|t]; cbn [call_numbers stored_by];
    try (intros Hn; destruct (is_number_num t Hn) as [n ->]; cbn; eauto).
  intros _. eauto.
Qed.

Lemma do_calls_returns (cs : list call) (w : world) :
  Forall call_numbers cs ->
  exists w',
    do_calls cs w = (inr tt, w')
    /\ (forall k, is_Some (self w !! k) -> is_Some (self w' !! k))
    /\ (Exists sets_temperature_end cs ->
        is_Some (self w' !! "_temperature_end")).
Proof.
  intros Hcs. revert w. induction Hcs as [|c cs Hc _ IH]; intros w.
  - exists w. split; [reflexivity|]. split; [auto|].
    intros H. inversion H.
  - destruct (stored_by_numbers c Hc) as [v Hv].
    pose proof (do_call_returns c v w Hv) as Hrun.
    destruct (IH (World (<[written c := v]> (self w))
                    (warnings w ++ warned_by c))) as (w' & Hruns & Hkeep & Hend).
    cbn [self] in Hkeep, Hend.
    exists w'. split; [|split].
    + cbn [do_calls]. now rewrite (bind_returns _ _ _ _ tt Hrun).
    + intros k Hk. apply Hkeep. rewrite lookup_insert_is_Some. 
      destruct (decide (written c = k)); auto.
    + intros H. inversion H as [? ? Hhere|? ? Hlater]; subst.
      * apply Hkeep. unfold sets_temperature_end in Hhere. rewrite Hhere.
        rewrite lookup_insert_eq. eauto.
      * now apply Hend.
Qed.

Lemma constructed_initialised (kw : kwargs) (ws : list string) :
  kwargs_numbers kw ->
  exists w,
    Equilibration kw ws = (inr tt, w)
    /\ initialised (self w)
    /\ (kw_temperature_end kw <> VNone ->
        is_Some (self w !! "_temperature_end")).
Proof.
  intros (Ht & Hr & Hs & He).
  destruct (is_number_num _ Ht) as [nt Hnt].
  destruct (is_number_num _ Hr) as [nr Hnr].
  destruct (is_number_num _ Hs) as [ns Hns].
  destruct He as [He|He].
  - eexists. split; [exact (init_constant kw ws nt nr ns Hnt Hnr Hns He)|].
    unfold started, initialised. cbn [self].
    split; [|intros Hne; now destruct Hne].
    repeat split;
      (rewrite !lookup_insert_ne by done; rewrite lookup_insert_eq; eauto)
      || (rewrite lookup_insert_eq; eauto).
  - destruct (is_number_num _ He) as [ne Hne].
    eexists. split; [exact (init_ramp kw ws nt nr ns Hnt Hnr Hns ne Hne)|].
    unfold started, initialised. cbn [self].
    split; [|intros _].
    + repeat split;
        (rewrite !lookup_insert_ne by done; rewrite lookup_insert_eq; eauto)
        || (rewrite lookup_insert_eq; eauto).
    + rewrite !lookup_insert_ne by done. rewrite lookup_insert_eq. eauto.
Qed.

(** C1, as stated, fails: a numeric setter handed a string raises
    [TypeError], in a call of its own as within the constructor, and reading
    [temperature_end] on an instance constructed without one raises
    [AttributeError]. *)
Lemma operations_raise :
  timestep_setter (VStr "2") (snd (Equilibration defaults []))
  = (inl TypeError, snd (Equilibration defaults []))
  /\ fst (Equilibration kw_textual_timestep []) = inl TypeError
  /\ Equilibration defaults [] = (inr tt, snd (Equilibration defaults []))
  /\ temperature_end (snd (Equilibration defaults []))
     = (inl AttributeError, snd (Equilibration defaults [])).
Proof. repeat split; reflexivity. Qed.

(** C1, amended. When every argument of the numeric parameters is a number
    (an int, a float or a bool), no operation raises: the constructor
    returns, every setter call after it returns (the [is_restrained] setter
    on any value at all), and the getters [timestep], [runtime],
    [temperature_start], [is_restrained] and [isConstantTemp()] then return
    a value; so does the getter [temperature_end], once an end temperature
    was supplied to the constructor or set through its setter. *)
Theorem returns_on_numbers (kw : kwargs) (ws : list string) (cs : list call) :
  kwargs_numbers kw -> Forall call_numbers cs ->
  exists w0 w,
    Equilibration kw ws = (inr tt, w0)
    /\ do_calls cs w0 = (inr tt, w)
    /\ (exists v, timestep w = (inr v, w))
    /\ (exists v, runtime w = (inr v, w))
    /\ (exists v, temperature_start w = (inr v, w))
    /\ (exists v, is_restrained w = (inr v, w))
    /\ (exists v, isConstantTemp w = (inr v, w))
    /\ (kw_temperature_end kw <> VNone \/ Exists sets_temperature_end cs ->
        exists v, temperature_end w = (inr v, w)).
Proof.
  intros Hkw Hcs.
  destruct (constructed_initialised kw ws Hkw)
    as (w0 & Hrun & (Ht & Hr & Hs & Hb & Hc) & Hend0).
  destruct (do_calls_returns cs w0 Hcs) as (w & Hruns & Hkeep & Hend).
  exists w0, w. split; [exact Hrun|]. split; [exact Hruns|].
  repeat split; try (apply getattr_returns; apply Hkeep; assumption).
  intros [Hne|Hex]; apply getattr_returns.
  - apply Hkeep. now apply Hend0.
  - now apply Hend.
Qed.

Lemma returns_on_numbers_witness :
  exists w0 w,
    Equilibration defaults [] = (inr tt, w0)
    /\ do_calls [SetRuntime (VBool true); SetTemperatureEnd (VFloat S754_nan);
                 SetIsRestrained VNone] w0 = (inr tt, w)
    /\ (exists v, timestep w = (inr v, w))
    /\ (exists v, runtime w = (inr v, w))
    /\ (exists v, temperature_start w = (inr v, w))
    /\ (exists v, is_restrained w = (inr v, w))
    /\ (exists v, isConstantTemp w = (inr v, w))
    /\ (kw_temperature_end defaults <> VNone
        \/ Exists sets_temperature_end
             [SetRuntime (VBool true); SetTemperatureEnd (VFloat S754_nan);
              SetIsRestrained VNone] ->
        exists v, temperature_end w = (inr v, w)).
Proof.
  apply (returns_on_numbers defaults []).
  - repeat split; try reflexivity. now left.
  - repeat constructor.
Defined.

(** * Further properties *)

(** ** The end temperature *)

(** X1. For every number [s] handed to the [temperature_end] setter: when
    [s < 0] the stored value becomes the int 300 and the final-temperature
    warning is appended; when [0 <= s <= 1e-12] the stored value becomes the
    float 0.01 and nothing is warned; when [s > 1e-12] the value [s] is
    stored unchanged and nothing is warned.  Only [_temperature_end] is
    written. *)
Theorem temperature_end_setter_spec (s : value) (n : num) (w : world) :
  as_num s = Some n ->
  (num_ltb n zero = true ->
   temperature_end_setter s w
   = (inr tt, World (<["_temperature_end" := VInt 300]> (self w))
                (warnings w ++ [temperature_end_msg])))
  /\ (num_leb zero n = true -> num_leb n tolerance = true ->
      temperature_end_setter s w
      = (inr tt, World (<["_temperature_end" := VFloat float_0_01]> (self w))
                   (warnings w)))
  /\ (num_ltb tolerance n = true ->
      temperature_end_setter s w
      = (inr tt, World (<["_temperature_end" := s]> (self w)) (warnings w))).
Proof.
  intros Hn. destruct (temperature_branches s n Hn) as (Hneg & Hzero & Hpos).
  unfold temperature_end_setter. rewrite bind_eval.
  split; [|split].
  - intros H. now rewrite (Hneg H).
  - intros H0 Htol. destruct (Hzero H0 Htol) as [-> ->]. reflexivity.
  - intros H. destruct (Hpos H) as [-> ->]. reflexivity.
Qed.

Lemma temperature_end_setter_spec_witness :
  temperature_end_setter (VFloat (S754_infinity true)) (World ∅ [])
  = (inr tt, World (<["_temperature_end" := VInt 300]> ∅)
               [temperature_end_msg])
  /\ temperature_end_setter (VBool false) (World ∅ [])
     = (inr tt, World (<["_temperature_end" := VFloat float_0_01]> ∅) [])
  /\ temperature_end_setter (VFloat float_300) (World ∅ [])
     = (inr tt, World (<["_temperature_end" := VFloat float_300]> ∅) []).
Proof.
  split; [|split].
  - exact (proj1 (temperature_end_setter_spec (VFloat (S754_infinity true))
                    (Inf true) (World ∅ []) eq_refl) eq_refl).
  - exact (proj1 (proj2 (temperature_end_setter_spec (VBool false)
                           (Fin 0 0) (World ∅ []) eq_refl))
             eq_refl eq_refl).
  - exact (proj2 (proj2 (temperature_end_setter_spec (VFloat float_300)
                           (num_of_float float_300) (World ∅ []) eq_refl))
             eq_refl).
Defined.

(** X2. The two temperature setters apply one rule: on every argument,
    number or not, and in every state, what [temperature_start] reads after
    its setter is what [temperature_end] reads after its own (the same
    value, or the same exception), and the two setters issue the same number
    of warnings. *)
Theorem temperature_setters_agree (t : value) (w : world) :
  read_back (temperature_start_setter t) temperature_start w
  = read_back (temperature_end_setter t) temperature_end w
  /\ length (warnings (snd (temperature_start_setter t w)))
     = length (warnings (snd (temperature_end_setter t w))).
Proof.
  split.
  - now rewrite read_back_temperature_start, read_back_temperature_end.
  - destruct (as_num t) as [n|] eqn:Hn.
    + rewrite (temperature_start_setter_run t n w Hn).
      rewrite (temperature_end_setter_run t n w Hn).
      cbn [snd warnings]. rewrite !length_app. f_equal.
      unfold temperature_warned. now destruct (num_ltb n zero).
    + destruct (numeric_setter_raises t w Hn) as (_ & _ & -> & ->).
      reflexivity.
Qed.

(** ** Setter calls: errors and round trips *)

(** X3. Among calls on [None], a [bool], an [int], a [float] or a [str]: a
    setter call raises exactly when it is a numeric setter handed [None] or a
    [str]; the exception is then [TypeError], and neither the instance nor
    the warning channel has changed.  Every other such call returns, having
    written its own attribute and kept the earlier warnings. *)
Theorem setter_raises_exactly (c : call) (w : world) :
  call_builtin c ->
  (~ call_numbers c ->
   (argument c = VNone \/ exists s, argument c = VStr s)
   /\ do_call c w = (inl TypeError, w))
  /\ (call_numbers c ->
      exists v new,
        do_call c w
        = (inr tt, World (<[written c := v]> (self w)) (warnings w ++ new))).
Proof.
  intros Hb. split.
  - intros Hc. split.
    + unfold call_builtin in Hb.
      destruct c as [t|t|t|t|t]; cbn [call_numbers argument] in *;
        try (exfalso; apply Hc; exact I);
        destruct t; try discriminate Hb; eauto;
        exfalso; apply Hc; reflexivity.
    + apply do_call_raises.
      destruct (stored_by c) as [v|] eqn:Hv; [|reflexivity].
      exfalso. apply Hc.
      destruct c as [t|t|t|t|t]; cbn [call_numbers stored_by] in *;
        try exact I; unfold is_number;
        destruct (as_num t); try reflexivity; discriminate Hv.
  - intros Hc. destruct (stored_by_numbers c Hc) as [v Hv].
    exists v, (warned_by c). now apply do_call_returns.
Qed.

Lemma setter_raises_exactly_witness :
  (~ call_numbers (SetRuntime (VStr "long")) ->
   (argument (SetRuntime (VStr "long")) = VNone
    \/ exists s, argument (SetRuntime (VStr "long")) = VStr s)
   /\ do_call (SetRuntime (VStr "long")) (World ∅ [])
      = (inl TypeError, World ∅ []))
  /\ (call_numbers (SetRuntime (VStr "long")) ->
      exists v new,
        do_call (SetRuntime (VStr "long")) (World ∅ [])
        = (inr tt, World (<[written (SetRuntime (VStr "long")) := v]> ∅)
                     ([] ++ new))).
Proof.
  exact (setter_raises_exactly (SetRuntime (VStr "long")) (World ∅ []) eq_refl).
Defined.

Lemma positive_stored_fixed (default t : value) (n d : num) :
  as_num default = Some d -> num_leb d zero = false ->
  as_num t = Some n ->
  exists n', as_num (positive_stored default t n) = Some n'
             /\ num_leb n' zero = false.
Proof.
  intros Hd Hpos Hn. unfold positive_stored.
  destruct (num_leb n zero) eqn:Hle; eauto.
Qed.

Lemma temperature_stored_fixed (t : value) (n : num) :
  as_num t = Some n ->
  exists n', as_num (temperature_stored t n) = Some n'
             /\ temperature_stored (temperature_stored t n) n'
                = temperature_stored t n
             /\ num_ltb n' zero = false.
Proof.
  intros Hn. unfold temperature_stored at 1 3 4.
  destruct (num_ltb n zero) eqn:Hlt.
  - exists (Fin 300 0). repeat split.
  - destruct (eq_approx_0 t) eqn:Ha.
    + exists (num_of_float float_0_01). repeat split.
    + exists n. split; [exact Hn|]. split; [|exact Hlt].
      unfold temperature_stored. now rewrite Hlt, Ha.
Qed.

(** What a setter stored, handed to it again, is stored again and warns of
    nothing. *)
Lemma stored_by_fixed (c : call) (v : value) :
  stored_by c = Some v ->
  stored_by (with_argument c v) = Some v
  /\ warned_by (with_argument c v) = []
  /\ written (with_argument c v) = written c.
Proof.
  destruct c as [t|t|t|t|t];
    cbn [stored_by with_argument warned_by written];
    try (destruct (as_num t) as [n|] eqn:Hn; [|discriminate]; cbn;
         intros [= <-]).
  - destruct (positive_stored_fixed (VInt 2) t n (Fin 2 0) eq_refl eq_refl Hn)
      as (n' & Hn' & Hle).
    rewrite Hn'. cbn. unfold positive_stored at 1, positive_warned.
    now rewrite Hle.
  - destruct (positive_stored_fixed (VFloat float_0_2) t n _ eq_refl eq_refl Hn)
      as (n' & Hn' & Hle).
    rewrite Hn'. cbn. unfold positive_stored at 1, positive_warned.
    now rewrite Hle.
  - destruct (temperature_stored_fixed t n Hn) as (n' & Hn' & Hfix & Hlt).
    rewrite Hn'. cbn. unfold temperature_warned. now rewrite Hfix, Hlt.
  - destruct (temperature_stored_fixed t n Hn) as (n' & Hn' & Hfix & Hlt).
    rewrite Hn'. cbn. unfold temperature_warned. now rewrite Hfix, Hlt.
  - intros [= <-]. now destruct t.
Qed.

Lemma getter_reads_written (c : call) : getter c = getattr (written c).
Proof. now destruct c. Qed.

(** X4. Validation is idempotent: after a setter call has returned, the
    value its getter reads can be handed back to the same setter, and that
    second call returns, warns of nothing and leaves the instance exactly as
    it was. *)
Theorem getter_value_accepted (c : call) (w w1 : world) (v : value) :
  do_call c w = (inr tt, w1) ->
  getter c w1 = (inr v, w1) ->
  do_call (with_argument c v) w1 = (inr tt, w1).
Proof.
  intros Hrun Hget.
  destruct (stored_by c) as [v0|] eqn:Hv0.
  2:{ rewrite (do_call_raises c w Hv0) in Hrun. discriminate Hrun. }
  rewrite (do_call_returns c v0 w Hv0) in Hrun. injection Hrun as <-.
  rewrite getter_reads_written in Hget. unfold getattr in Hget.
  cbn [self] in Hget. rewrite lookup_insert_eq in Hget.
  injection Hget as <-.
  destruct (stored_by_fixed c v0 Hv0) as (Hfix & Hwarn & Hname).
  rewrite (do_call_returns _ v0 _ Hfix). rewrite Hwarn, Hname.
  cbn [self warnings]. now rewrite insert_insert_eq, app_nil_r.
Qed.

Lemma getter_value_accepted_witness :
  do_call (SetTemperatureStart (VFloat float_0_01))
    (World (<["_temperature_start" := VFloat float_0_01]> ∅) [])
  = (inr tt, World (<["_temperature_start" := VFloat float_0_01]> ∅) []).
Proof.
  exact (getter_value_accepted (SetTemperatureStart (VInt 0)) (World ∅ [])
           (World (<["_temperature_start" := VFloat float_0_01]> ∅) [])
           (VFloat float_0_01) eq_refl eq_refl).
Defined.

(** ** The constructor: when it returns and what it builds *)

(** The two shapes of a constructed instance. *)
Lemma constructed_cases (kw : kwargs) (ws : list string) (w : world) :
  Equilibration kw ws = (inr tt, w) ->
  exists nt nr ns,
    as_num (kw_timestep kw) = Some nt
    /\ as_num (kw_runtime kw) = Some nr
    /\ as_num (kw_temperature_start kw) = Some ns
    /\
    ((kw_temperature_end kw = VNone
     /\ w = World
              (<["_is_restrained" := restraint_stored (kw_restrain_backbone kw)]>
                 (<["_is_const_temp" := VBool true]>
                    (self (started kw ws nt nr ns))))
              (warnings (started kw ws nt nr ns)
                 ++ restraint_warned (kw_restrain_backbone kw)))
    \/ (exists ne t_start t_end,
          as_num (kw_temperature_end kw) = Some ne
          /\ t_start = temperature_stored (kw_temperature_start kw) ns
          /\ t_end = temperature_stored (kw_temperature_end kw) ne
          /\ w = World
                   (<["_is_restrained" :=
                        restraint_stored (kw_restrain_backbone kw)]>
                      (<["_is_const_temp" := VBool (py_eq t_start t_end)]>
                         (<["_temperature_end" := t_end]>
                            (self (started kw ws nt nr ns)))))
                   (((warnings (started kw ws nt nr ns)
                        ++ temperature_warned temperature_end_msg ne)
                       ++ (if py_eq t_start t_end
                           then [same_temperatures_msg] else []))
                      ++ restraint_warned (kw_restrain_backbone kw)))).
Proof.
  intros Hrun.
  destruct (constructed_arguments kw ws w Hrun)
    as (nt & nr & ns & Ht & Hr & Hs & [He|[ne He]]); exists nt, nr, ns;
    do 3 (split; [assumption|]).
  - left. split; [exact He|].
    rewrite (init_constant kw ws nt nr ns Ht Hr Hs He) in Hrun.
    now injection Hrun as <-.
  - right. eexists ne, _, _. split; [exact He|]. do 2 (split; [reflexivity|]).
    pose proof (init_ramp kw ws nt nr ns Ht Hr Hs ne He) as Hramp.
    cbv zeta in Hramp. rewrite Hramp in Hrun. now injection Hrun as <-.
Qed.

Lemma number_not_None (v : value) (n : num) :
  as_num v = Some n -> is_not_None v = true /\ v <> VNone.
Proof.
  destruct v; try discriminate; intros _; (split; [reflexivity | discriminate]).
Qed.

(** X5. Among arguments that are [None], a [bool], an [int], a [float] or a
    [str]: the constructor returns exactly when [timestep], [runtime] and
    [temperature_start] are numbers and [temperature_end] is [None] or a
    number; otherwise (one of the first three is [None] or a [str], or
    [temperature_end] is a [str]) it raises [TypeError]. *)
Theorem construction_returns_exactly (kw : kwargs) (ws : list string) :
  kwargs_builtin kw ->
  (kwargs_numbers kw -> exists w, Equilibration kw ws = (inr tt, w))
  /\ (~ kwargs_numbers kw -> fst (Equilibration kw ws) = inl TypeError).
Proof.
  intros _. split.
  - intros Hkw. destruct (constructed_initialised kw ws Hkw) as (w & Hrun & _).
    now exists w.
  - intros Hkw. unfold Equilibration, __init__.
    rewrite (bind_returns _ _ _ _ tt (Protocol__init__run _ _ _)).
    destruct (as_num (kw_timestep kw)) as [nt|] eqn:Ht.
    2:{ match goal with |- fst (bind _ _ ?w0) = _ =>
          destruct (numeric_setter_raises _ w0 Ht) as (H & _) end.
        now rewrite (bind_raises _ _ _ _ _ H). }
    rewrite (bind_returns _ _ _ _ tt (timestep_setter_run _ _ _ Ht)).
    destruct (as_num (kw_runtime kw)) as [nr|] eqn:Hr.
    2:{ match goal with |- fst (bind _ _ ?w0) = _ =>
          destruct (numeric_setter_raises _ w0 Hr) as (_ & H & _) end.
        now rewrite (bind_raises _ _ _ _ _ H). }
    rewrite (bind_returns _ _ _ _ tt (runtime_setter_run _ _ _ Hr)).
    destruct (as_num (kw_temperature_start kw)) as [ns|] eqn:Hs.
    2:{ match goal with |- fst (bind _ _ ?w0) = _ =>
          destruct (numeric_setter_raises _ w0 Hs) as (_ & _ & H & _) end.
        now rewrite (bind_raises _ _ _ _ _ H). }
    rewrite (bind_returns _ _ _ _ tt (temperature_start_setter_run _ _ _ Hs)).
    destruct (as_num (kw_temperature_end kw)) as [ne|] eqn:He.
    { exfalso. apply Hkw. unfold kwargs_numbers, is_number.
      rewrite Ht, Hr, Hs, He. auto. }
    destruct (is_not_None (kw_temperature_end kw)) eqn:Hnn.
    2:{ exfalso. apply Hkw. unfold kwargs_numbers, is_number.
        rewrite Ht, Hr, Hs. repeat split. left.
        destruct (kw_temperature_end kw); try discriminate; reflexivity. }
    rewrite bind_assoc.
    match goal with |- fst (bind _ _ ?w0) = _ =>
      destruct (numeric_setter_raises _ w0 He) as (_ & _ & _ & H) end.
    now rewrite (bind_raises _ _ _ _ _ H).
Qed.

Lemma construction_returns_exactly_witness :
  (kwargs_numbers kw_textual_timestep ->
   exists w, Equilibration kw_textual_timestep [] = (inr tt, w))
  /\ (~ kwargs_numbers kw_textual_timestep ->
      fst (Equilibration kw_textual_timestep []) = inl TypeError).
Proof.
  apply (construction_returns_exactly kw_textual_timestep []).
  repeat split.
Defined.

(** X6. On a constructed instance the getter [temperature_end] raises
    [AttributeError] exactly when the constructor was given
    [temperature_end = None]; given an end temperature, the getter returns a
    value. *)
Theorem temperature_end_unset_without_argument (kw : kwargs) (ws : list string)
        (w : world) :
  Equilibration kw ws = (inr tt, w) ->
  (kw_temperature_end kw = VNone -> temperature_end w = (inl AttributeError, w))
  /\ (kw_temperature_end kw <> VNone -> exists v, temperature_end w = (inr v, w)).
Proof.
  intros Hrun.
  destruct (constructed_cases kw ws w Hrun)
    as (nt & nr & ns & _ & _ & _ & [(He & ->)|(ne & a & b & He & _ & _ & ->)]).
  - split; [intros _ | intros Hne; now destruct Hne].
    unfold temperature_end, getattr, started. cbn [self].
    rewrite !lookup_insert_ne by done. now rewrite lookup_empty.
  - destruct (number_not_None _ _ He) as (_ & Hne).
    split; [intros Hnone; now destruct Hne | intros _].
    exists b. unfold temperature_end, getattr. cbn [self].
    rewrite !lookup_insert_ne by done. now rewrite lookup_insert_eq.
Qed.

Lemma temperature_end_unset_without_argument_witness :
  (kw_temperature_end kw_cold_start = VNone ->
   temperature_end (snd (Equilibration kw_cold_start []))
   = (inl AttributeError, snd (Equilibration kw_cold_start [])))
  /\ (kw_temperature_end kw_cold_start <> VNone ->
      exists v, temperature_end (snd (Equilibration kw_cold_start []))
                = (inr v, snd (Equilibration kw_cold_start []))).
Proof.
  exact (temperature_end_unset_without_argument kw_cold_start []
           (snd (Equilibration kw_cold_start [])) eq_refl).
Defined.

(** X7. A constructed instance has exactly the attributes [_type],
    [_gas_phase], [_timestep], [_runtime], [_temperature_start],
    [_is_const_temp] and [_is_restrained], and [_temperature_end] as well
    exactly when an end temperature other than [None] was given. *)
Theorem constructed_attributes (kw : kwargs) (ws : list string) (w : world) :
  Equilibration kw ws = (inr tt, w) ->
  dom (self w) = constructed_names kw.
Proof.
  intros Hrun. unfold constructed_names.
  destruct (constructed_cases kw ws w Hrun)
    as (nt & nr & ns & _ & _ & _ & [(He & ->)|(ne & a & b & He & _ & _ & ->)]).
  - rewrite He. cbn [is_not_None self started].
    rewrite !dom_insert_L, dom_empty_L. set_solver.
  - destruct (number_not_None _ _ He) as (-> & _). cbn [self started].
    rewrite !dom_insert_L, dom_empty_L. set_solver.
Qed.

Lemma constructed_attributes_witness :
  dom (self (snd (Equilibration kw_both_zero []))) = constructed_names kw_both_zero.
Proof.
  exact (constructed_attributes kw_both_zero []
           (snd (Equilibration kw_both_zero [])) eq_refl).
Defined.

(** X8. On a constructed instance [isConstantTemp()] is [True] exactly when
    no end temperature was given or the stored start and end temperatures
    compare equal, and the equal-temperatures warning was issued by the
    construction exactly when the stored temperatures compare equal; with
    stored temperatures that differ the flag is [False] and that warning is
    absent. *)
Theorem flag_true_exactly (kw : kwargs) (ws : list string) (w : world) :
  Equilibration kw ws = (inr tt, w) ->
  exists (b : bool) (new : list string),
    isConstantTemp w = (inr (VBool b), w)
    /\ warnings w = (ws ++ new)%list
    /\ (b = true <-> kw_temperature_end kw = VNone \/ stored_equal (self w))
    /\ (In same_temperatures_msg new <-> stored_equal (self w)).
Proof.
  intros Hrun.
  assert (Hnot : forall l1 l2 l3 l4 : list string,
            l1 = [] \/ l1 = [timestep_msg] ->
            l2 = [] \/ l2 = [runtime_msg] ->
            l3 = [] \/ l3 = [temperature_start_msg] ->
            l4 = [] \/ l4 = [is_restrained_msg] ->
            ~ In same_temperatures_msg (l1 ++ l2 ++ l3 ++ l4)).
  { intros l1 l2 l3 l4 [->| ->] [->| ->] [->| ->] [->| ->]; cbn;
      intros H; decompose [or] H; try discriminate; auto. }
  assert (Hp : forall n m, positive_warned m n = [] \/ positive_warned m n = [m]).
  { intros n m. unfold positive_warned. destruct (num_leb n zero); auto. }
  assert (Ht : forall n m,
            temperature_warned m n = [] \/ temperature_warned m n = [m]).
  { intros n m. unfold temperature_warned. destruct (num_ltb n zero); auto. }
  assert (Hr : forall v, restraint_warned v = []
                         \/ restraint_warned v = [is_restrained_msg]).
  { intros v. unfold restraint_warned. destruct v; auto. }
  destruct (constructed_cases kw ws w Hrun)
    as (nt & nr & ns & _ & _ & _ & [(He & ->)|(ne & a & b & He & Ha & Hb & ->)]).
  - exists true. eexists. split; [apply isConstantTemp_constructed|].
    cbn [warnings started self]. rewrite <- !app_assoc.
    split; [reflexivity|]. split; [tauto|].
    split.
    + intros Hin. exfalso. revert Hin. apply Hnot; auto.
    + intros (x & y & _ & Hy & _). exfalso. revert Hy.
      rewrite !lookup_insert_ne by done. now rewrite lookup_empty.
  - destruct (number_not_None _ _ He) as (_ & Hne).
    assert (Heq : stored_equal
                    (<["_is_restrained" :=
                         restraint_stored (kw_restrain_backbone kw)]>
                       (<["_is_const_temp" := VBool (py_eq a b)]>
                          (<["_temperature_end" := b]>
                             (self (started kw ws nt nr ns)))))
                  <-> py_eq a b = true).
    { unfold stored_equal, started. cbn [self]. split.
      - intros (x & y & Hx & Hy & Hxy). revert Hx Hy.
        rewrite !lookup_insert_ne by done. rewrite lookup_insert_eq.
        rewrite !lookup_insert_ne by done. rewrite lookup_insert_eq.
        subst a. intros [= <-] [= <-]. exact Hxy.
      - intros Hxy. exists a, b.
        rewrite !lookup_insert_ne by done. rewrite lookup_insert_eq.
        rewrite !lookup_insert_ne by done. rewrite lookup_insert_eq.
        subst a. auto. }
    exists (py_eq a b). eexists. split; [apply isConstantTemp_constructed|].
    cbn [warnings started]. cbn [self] in Heq |- *. rewrite <- !app_assoc.
    split; [reflexivity|]. rewrite Heq. split; [tauto|].
    destruct (py_eq a b).
    + split; [reflexivity|]. intros _.
      rewrite !in_app_iff. do 4 right. left. now left.
    + split; [|discriminate]. intros Hin. exfalso. revert Hin.
      rewrite !in_app_iff.
      assert (Hl : forall (l : list string) (m : string),
                l = [] \/ l = [m] -> m <> same_temperatures_msg ->
                ~ In same_temperatures_msg l).
      { intros l m [->| ->] Hm; cbn; [tauto|]. intros [H|[]]. now apply Hm. }
      intros [H|[H|[H|[H|[H|H]]]]]; revert H;
        [apply (Hl _ _ (Hp nt timestep_msg))
        |apply (Hl _ _ (Hp nr runtime_msg))
        |apply (Hl _ _ (Ht ns temperature_start_msg))
        |apply (Hl _ _ (Ht ne temperature_end_msg))
        |cbn; tauto
        |apply (Hl _ _ (Hr _))]; discriminate.
Qed.

Lemma flag_true_exactly_witness :
  exists (b : bool) (new : list string),
    isConstantTemp (snd (Equilibration kw_both_negative []))
    = (inr (VBool b), snd (Equilibration kw_both_negative []))
    /\ warnings (snd (Equilibration kw_both_negative [])) = ([] ++ new)%list
    /\ (b = true <->
        kw_temperature_end kw_both_negative = VNone
        \/ stored_equal (self (snd (Equilibration kw_both_negative []))))
    /\ (In same_temperatures_msg new <->
        stored_equal (self (snd (Equilibration kw_both_negative [])))).
Proof.
  exact (flag_true_exactly kw_both_negative []
           (snd (Equilibration kw_both_negative [])) eq_refl).
Defined.

(** ** How setter calls compose *)

(** X9. Two setter calls that both return and write different attributes
    can be swapped: in either order both return and leave the instance with
    the same attributes. *)
Theorem setters_commute (c1 c2 : call) (w : world) :
  call_numbers c1 -> call_numbers c2 -> written c1 <> written c2 ->
  exists w12 w21,
    do_calls [c1; c2] w = (inr tt, w12)
    /\ do_calls [c2; c1] w = (inr tt, w21)
    /\ self w12 = self w21.
Proof.
  intros H1 H2 Hne.
  destruct (stored_by_numbers c1 H1) as [v1 Hv1].
  destruct (stored_by_numbers c2 H2) as [v2 Hv2].
  eexists _, _. cbn [do_calls].
  rewrite (bind_returns _ _ _ _ tt (do_call_returns c1 v1 w Hv1)).
  rewrite (bind_returns _ _ _ _ tt (do_call_returns c2 v2 _ Hv2)).
  rewrite (bind_returns _ _ _ _ tt (do_call_returns c2 v2 w Hv2)).
  rewrite (bind_returns _ _ _ _ tt (do_call_returns c1 v1 _ Hv1)).
  split; [reflexivity|]. split; [reflexivity|].
  cbn [self]. now apply insert_insert_ne.
Qed.

Lemma setters_commute_witness :
  exists w12 w21,
    do_calls [SetTimestep (VInt (-1)); SetTemperatureEnd (VInt 0)] (World ∅ [])
    = (inr tt, w12)
    /\ do_calls [SetTemperatureEnd (VInt 0); SetTimestep (VInt (-1))]
         (World ∅ []) = (inr tt, w21)
    /\ self w12 = self w21.
Proof.
  apply (setters_commute (SetTimestep (VInt (-1))) (SetTemperatureEnd (VInt 0))
           (World ∅ [])); [reflexivity | reflexivity | discriminate].
Defined.

(** X10. The last write wins: of two calls of the same setter that both
    return, only the second shows in the attributes, which are those the
    second call alone would leave. *)
Theorem last_setter_wins (c1 c2 : call) (w : world) :
  call_numbers c1 -> call_numbers c2 -> written c1 = written c2 ->
  exists w12 w2,
    do_calls [c1; c2] w = (inr tt, w12)
    /\ do_call c2 w = (inr tt, w2)
    /\ self w12 = self w2.
Proof.
  intros H1 H2 Heq.
  destruct (stored_by_numbers c1 H1) as [v1 Hv1].
  destruct (stored_by_numbers c2 H2) as [v2 Hv2].
  eexists _, _. cbn [do_calls].
  rewrite (bind_returns _ _ _ _ tt (do_call_returns c1 v1 w Hv1)).
  rewrite (bind_returns _ _ _ _ tt (do_call_returns c2 v2 _ Hv2)).
  rewrite (do_call_returns c2 v2 w Hv2).
  split; [reflexivity|]. split; [reflexivity|].
  cbn [self]. rewrite Heq. now apply insert_insert_eq.
Qed.

Lemma last_setter_wins_witness :
  exists w12 w2,
    do_calls [SetRuntime (VInt 5); SetRuntime (VInt 0)] (World ∅ [])
    = (inr tt, w12)
    /\ do_call (SetRuntime (VInt 0)) (World ∅ []) = (inr tt, w2)
    /\ self w12 = self w2.
Proof.
  apply (last_setter_wins (SetRuntime (VInt 5)) (SetRuntime (VInt 0))
           (World ∅ [])); reflexivity.
Defined.

(** An end temperature cannot be both [None] and a number. *)
Ltac end_mismatch :=
  match goal with
  | H1 : kw_temperature_end ?kw = VNone,
    H2 : as_num (kw_temperature_end ?kw) = Some _ |- _ =>
      rewrite H1 in H2; discriminate H2
  end.

(** Two instances built by the same insertions in different orders. *)
Ltac same_attributes :=
  unfold started; cbn [self];
  apply map_eq; intros ?;
  repeat (rewrite lookup_insert; case_decide; [reflexivity|]);
  reflexivity.

Lemma supplied_numbers (kw : kwargs) (c : call) :
  kwargs_numbers kw -> call_numbers c ->
  written c <> "_temperature_end" ->
  kwargs_numbers (supplied kw c).
Proof.
  intros (Ht & Hr & Hs & He) Hc Hw.
  destruct c; cbn [supplied call_numbers written] in *; try congruence;
    repeat split; assumption.
Qed.

(** X11. For the time step, the running time and the restraint flag,
    setting after construction is constructing with the value: constructing
    and then calling the setter on [v] leaves the same attributes as
    constructing with [v] in the place of that argument.  (The temperature
    setters are excluded: they do not recompute the constant-temperature
    flag, which the constructor does.) *)
Theorem set_after_construction (kw : kwargs) (ws : list string) (c : call) :
  kwargs_numbers kw -> call_numbers c ->
  written c <> "_temperature_start" -> written c <> "_temperature_end" ->
  exists w0 w1 w2,
    Equilibration kw ws = (inr tt, w0)
    /\ do_call c w0 = (inr tt, w1)
    /\ Equilibration (supplied kw c) ws = (inr tt, w2)
    /\ self w1 = self w2.
Proof.
  intros Hkw Hc Hs He.
  destruct (constructed_initialised kw ws Hkw) as (w0 & Hrun0 & _).
  destruct (constructed_initialised (supplied kw c) ws
              (supplied_numbers kw c Hkw Hc He)) as (w2 & Hrun2 & _).
  destruct (stored_by_numbers c Hc) as [v Hv].
  eexists w0, _, w2. split; [exact Hrun0|].
  split; [exact (do_call_returns c v w0 Hv)|]. split; [exact Hrun2|].
  cbn [self].
  destruct (constructed_cases kw ws w0 Hrun0)
    as (nt & nr & ns & Hnt & Hnr & Hns & Hw0).
  destruct (constructed_cases _ ws w2 Hrun2)
    as (nt' & nr' & ns' & Hnt' & Hnr' & Hns' & Hw2).
  destruct c as [t|t|t|t|t]; cbn [written] in Hs, He; try congruence;
    cbn [supplied kw_timestep kw_runtime kw_temperature_start
           kw_temperature_end kw_restrain_backbone kw_gas_phase] in *;
    cbn [stored_by written] in Hv |- *.
  - rewrite Hnt' in Hv. injection Hv as <-.
    assert (nr' = nr) as -> by congruence.
    assert (ns' = ns) as -> by congruence.
    destruct Hw0 as [(Hn0 & ->)|(ne & a & b & Hne & -> & -> & ->)];
      destruct Hw2 as [(Hn2 & ->)|(ne' & a' & b' & Hne' & -> & -> & ->)];
      try end_mismatch; try (assert (ne' = ne) as -> by congruence);
      same_attributes.
  - rewrite Hnr' in Hv. injection Hv as <-.
    assert (nt' = nt) as -> by congruence.
    assert (ns' = ns) as -> by congruence.
    destruct Hw0 as [(Hn0 & ->)|(ne & a & b & Hne & -> & -> & ->)];
      destruct Hw2 as [(Hn2 & ->)|(ne' & a' & b' & Hne' & -> & -> & ->)];
      try end_mismatch; try (assert (ne' = ne) as -> by congruence);
      same_attributes.
  - injection Hv as <-.
    assert (nt' = nt) as -> by congruence.
    assert (nr' = nr) as -> by congruence.
    assert (ns' = ns) as -> by congruence.
    destruct Hw0 as [(Hn0 & ->)|(ne & a & b & Hne & -> & -> & ->)];
      destruct Hw2 as [(Hn2 & ->)|(ne' & a' & b' & Hne' & -> & -> & ->)];
      try end_mismatch; try (assert (ne' = ne) as -> by congruence);
      same_attributes.
Qed.

Lemma set_after_construction_witness :
  exists w0 w1 w2,
    Equilibration kw_both_zero [] = (inr tt, w0)
    /\ do_call (SetTimestep (VInt 4)) w0 = (inr tt, w1)
    /\ Equilibration (supplied kw_both_zero (SetTimestep (VInt 4))) []
       = (inr tt, w2)
    /\ self w1 = self w2.
Proof.
  apply (set_after_construction kw_both_zero [] (SetTimestep (VInt 4)));
    [|reflexivity|discriminate|discriminate].
  repeat split; try reflexivity. now right.
Defined.

(** ** What no call can break *)






(** ** The warning channel *)

Lemma grows_ret {A} (a : A) : grows 0 (ret a).
Proof. intros w. exists []. now rewrite app_nil_r. Qed.

Lemma grows_eval {A} (r : exn + A) : grows 0 (eval r).
Proof. intros w. exists []. now rewrite app_nil_r. Qed.

Lemma grows_setattr (name : string) (v : value) : grows 0 (setattr name v).
Proof. intros w. exists []. cbn. now rewrite app_nil_r. Qed.

Lemma grows_getattr (name : string) : grows 0 (getattr name).
Proof.
  intros w. exists []. unfold getattr.
  destruct (self w !! name); cbn; now rewrite app_nil_r.
Qed.

Lemma grows_warn (msg : string) : grows 1 (warn msg).
Proof. intros w. exists [msg]. split; [reflexivity | cbn; lia]. Qed.

Lemma grows_bind {A B} (n m : nat) (c : M A) (k : A -> M B) :
  grows n c -> (forall a, grows m (k a)) -> grows (n + m) (bind c k).
Proof.
  intros Hc Hk w. destruct (Hc w) as (new1 & H1 & L1). unfold bind.
  destruct (c w) as [[e|a] w1]; cbn [snd] in H1 |- *.
  - exists new1. split; [exact H1 | lia].
  - destruct (Hk a w1) as (new2 & H2 & L2).
    exists (new1 ++ new2)%list. rewrite H2, H1, <- app_assoc.
    split; [reflexivity|]. rewrite length_app. lia.
Qed.

Lemma grows_le {A} (n m : nat) (c : M A) :
  (n <= m)%nat -> grows n c -> grows m c.
Proof.
  intros Hnm Hc w. destruct (Hc w) as (new & H & L). exists new.
  split; [exact H | lia].
Qed.

Lemma grows_if {A} (n : nat) (b : bool) (c1 c2 : M A) :
  grows n c1 -> grows n c2 -> grows n (if b then c1 else c2).
Proof. now destruct b. Qed.

Lemma grows_setter (c : call) : grows 1 (do_call c).
Proof.
  destruct c as [t|t|t|t|t]; cbn [do_call];
    unfold timestep_setter, runtime_setter, temperature_start_setter,
      temperature_end_setter, is_restrained_setter.
  - apply (grows_bind 0 1); [apply grows_eval|]. intros b.
    apply grows_if; [|apply (grows_le 0); [lia | apply grows_setattr]].
    apply (grows_bind 1 0); [apply grows_warn | intros _; apply grows_setattr].
  - apply (grows_bind 0 1); [apply grows_eval|]. intros b.
    apply grows_if; [|apply (grows_le 0); [lia | apply grows_setattr]].
    apply (grows_bind 1 0); [apply grows_warn | intros _; apply grows_setattr].
  - apply (grows_bind 0 1); [apply grows_eval|]. intros b.
    apply grows_if;
      [|apply (grows_le 0); [lia | apply grows_if; apply grows_setattr]].
    apply (grows_bind 1 0); [apply grows_warn | intros _; apply grows_setattr].
  - apply (grows_bind 0 1); [apply grows_eval|]. intros b.
    apply grows_if;
      [|apply (grows_le 0); [lia | apply grows_if; apply grows_setattr]].
    apply (grows_bind 1 0); [apply grows_warn | intros _; apply grows_setattr].
  - apply grows_if; [apply (grows_le 0); [lia | apply grows_setattr]|].
    apply (grows_bind 1 0); [apply grows_warn | intros _; apply grows_setattr].
Qed.

(** X13. Setter calls only ever append to the warning channel: after any
    sequence of calls, returning or raising, the warnings issued before it
    are still there, in order, followed by at most one new warning per
    call. *)
Theorem setters_append_warnings (cs : list call) (w : world) :
  exists new,
    warnings (snd (do_calls cs w)) = (warnings w ++ new)%list
    /\ (length new <= length cs)%nat.
Proof.
  revert w. induction cs as [|c cs IH]; intros w.
  - exists []. cbn. now rewrite app_nil_r.
  - assert (Hg : grows (1 + length cs) (do_calls (c :: cs))).
    { cbn [do_calls]. apply grows_bind; [apply grows_setter|].
      intros _ w'. exact (IH w'). }
    exact (Hg w).
Qed.

(** X14. The constructor only appends to the warning channel, and at most
    six warnings (one per validated argument, and the equal-temperatures
    warning), whether it returns or raises. *)
Theorem construction_appends_warnings (kw : kwargs) (ws : list string) :
  exists new,
    warnings (snd (Equilibration kw ws)) = (ws ++ new)%list
    /\ (length new <= 6)%nat.
Proof.
  assert (Hg : grows 6
            (__init__ (kw_timestep kw) (kw_runtime kw) (kw_temperature_start kw)
               (kw_temperature_end kw) (kw_restrain_backbone kw)
               (kw_gas_phase kw))).
  { unfold __init__, Protocol__init__.
    apply (grows_bind 0 6).
    { apply (grows_bind 0 0); [apply grows_setattr|].
      intros _. apply grows_setattr. }
    intros _. apply (grows_bind 1 5); [apply (grows_setter (SetTimestep _))|].
    intros _. apply (grows_bind 1 4); [apply (grows_setter (SetRuntime _))|].
    intros _.
    apply (grows_bind 1 3); [apply (grows_setter (SetTemperatureStart _))|].
    intros _.
    apply (grows_bind 2 1); [|intros _; apply (grows_setter (SetIsRestrained _))].
    apply grows_if; [|apply (grows_le 0); [lia | apply grows_setattr]].
    apply (grows_bind 1 1); [apply (grows_setter (SetTemperatureEnd _))|].
    intros _. apply (grows_bind 0 1); [apply grows_setattr|].
    intros _. apply (grows_bind 0 1); [apply grows_getattr|].
    intros a. apply (grows_bind 0 1); [apply grows_getattr|].
    intros b. apply grows_if; [|apply (grows_le 0); [lia | apply grows_ret]].
    apply (grows_bind 1 0); [apply grows_warn | intros _; apply grows_setattr]. }
  exact (Hg (World ∅ ws)).
Qed.

(** The bound of six is reached. *)
Example six_warnings :
  warnings (snd (Equilibration
                   {| kw_timestep := VInt 0; kw_runtime := VInt 0;
                      kw_temperature_start := VInt (-1);
                      kw_temperature_end := VInt (-2);
                      kw_restrain_backbone := VNone;
                      kw_gas_phase := VBool false |} []))
  = [timestep_msg; runtime_msg; temperature_start_msg; temperature_end_msg;
     same_temperatures_msg; is_restrained_msg].
Proof. reflexivity. Qed.
